(** * RAG document search: retrieval and generation stages, streaming orchestration

    A shallow embedding of
      - src/nodes/nodes.py          (module [Nodes]: simple mode),
      - src/nodes/reactnode.py      (module [ReactNode]: tool-augmented mode),
      - src/graph_builder/graph_builder.py (module [GraphBuilder]),
    followed by the properties of the pipeline.

    Python generators are embedded as computations that produce a list of
    yielded values next to their result; exceptions are an explicit result;
    the State objects live in a store addressed by references; every call
    this code issues to a collaborator is appended to a call log. *)

From Stdlib Require Import String Ascii List Arith Lia DecimalString.
From stdpp Require Import gmap strings list.
Import ListNotations.

(** ** Python values and text helpers *)

(** The values an attribute or a dictionary entry holds in this model:
    [None] or a [str].  A content that is neither (a list of content
    blocks) is outside the model. *)
Inductive pyval : Type :=
  | PyNone
  | PyStr (s : string).

(** Python truthiness: [None] and the empty string are falsy. *)
Definition truthy (v : pyval) : bool :=
  match v with
  | PyNone => false
  | PyStr EmptyString => false
  | PyStr (String _ _) => true
  end.

(** [a or b]. *)
Definition py_or (a b : pyval) : pyval := if truthy a then a else b.

(** [isinstance(v, str)]. *)
Definition is_str (v : pyval) : bool :=
  match v with PyStr _ => true | PyNone => false end.

(** [d.get(k)] on a dictionary: [None] when the key is absent. *)
Definition dict_get (d : gmap string pyval) (k : string) : pyval :=
  match d !! k with Some v => v | None => PyNone end.

(** The line feed character of the Python literals. *)
Definition nl : string := String (ascii_of_nat 10) EmptyString.

(** [sep.join(l)]. *)
Definition str_join (sep : string) (l : list string) : string :=
  String.concat sep l.

(** [str(n)] for a non-negative [int]. *)
Definition str_of_nat (n : nat) : string :=
  NilEmpty.string_of_uint (Nat.to_uint n).

(** [str(v)] inside an f-string. *)
Definition py_str (v : pyval) : string :=
  match v with PyNone => "None" | PyStr s => s end.

(** ** Data model *)

(** A passage ([langchain_core.documents.Document]): body text and
    metadata; [metadata = None] stands for an object without the
    attribute. *)
Record Document : Type := mkDocument {
  page_content : string;
  metadata : option (gmap string pyval)
}.

(** Modelled from the spec: the declaration of [RAGState]
    (src/state/rag_state.py) is not among the sources.  Section 3 of the
    specification gives its fields: the question, the ordered passages
    (empty when none), and an optional answer, absent ([PyNone]) until
    the generation stage has produced it. *)
Record RAGState : Type := mkRAGState {
  question : string;
  retrieved_docs : list Document;
  answer : pyval
}.

(** A reference to a State object of the store. *)
Definition ref : Type := nat.

(** A message of the reasoning loop: [content] and [response_metadata]
    are attributes that may be missing. *)
Record Message : Type := mkMessage {
  content : option pyval;
  response_metadata : option (gmap string pyval)
}.

(** An item of the language model's stream: a plain [str], or an object
    with optional [content] and [text] attributes. *)
Inductive Chunk : Type :=
  | ChunkStr (s : string)
  | ChunkObj (chunk_content chunk_text : option pyval).

(** The outcome of a call: a value, or a raised [Exception] carrying its
    [str(e)]. *)
Inductive result (A : Type) : Type :=
  | Ok (a : A)
  | Raise (e : string).
Arguments Ok {A} a.
Arguments Raise {A} e.

(** A collaborator's lazy stream: the items it delivers, then a normal
    end ([None]) or a raised exception ([Some e]). *)
Definition stream (X : Type) : Type := (list X * option string)%type.

(** ** Collaborators *)

Record Retriever : Type := mkRetriever {
  retriever_invoke : string -> result (list Document)
}.

(** [invoke] gives the response's [content]; [stream] the chunks. *)
Record LLM : Type := mkLLM {
  llm_invoke : string -> result string;
  llm_stream : string -> stream Chunk
}.

(** The reasoning loop built by [create_react_agent]; it is seeded with
    the question; its results and stream items are dictionaries that may
    hold a message list under the key ["messages"]. *)
Record Agent : Type := mkAgent {
  agent_invoke : string -> result (gmap string (list Message));
  agent_stream : string -> stream (gmap string (list Message))
}.

(** The calls this code issues to its collaborators. *)
Inductive Call : Type :=
  | RetrieverInvoke (query : string)
  | LlmInvoke (prompt : string)
  | LlmStream (prompt : string)
  | CreateReactAgent
  | AgentInvoke (q : string)
  | AgentStream (q : string).

(** ** The world: store of State objects, call log, the lazily built agent *)

Record World : Type := mkWorld {
  heap : list RAGState;
  calls : list Call;
  _agent : option Agent
}.

Definition empty_world : World := mkWorld [] [] None.

(** ** Generators and functions as computations *)

(** A computation yields values of type [Y] and ends with a result; a
    plain function yields nothing. *)
Definition M (Y A : Type) : Type := World -> list Y * result A * World.

Definition ret {Y A} (a : A) : M Y A := fun w => ([], Ok a, w).

Definition bind {Y A B} (m : M Y A) (f : A -> M Y B) : M Y B :=
  fun w =>
    match m w with
    | (ys, Ok a, w1) =>
        match f a w1 with (ys', r, w2) => (ys ++ ys', r, w2) end
    | (ys, Raise e, w1) => (ys, Raise e, w1)
    end.

Notation "x <- m ;; k" := (bind m (fun x => k))
  (at level 100, m at next level, right associativity).

(** [yield y]. *)
Definition yield {Y} (y : Y) : M Y unit := fun w => ([y], Ok tt, w).

(** [raise Exception(e)]. *)
Definition raise {Y A} (e : string) : M Y A := fun w => ([], Raise e, w).

(** [try: body  except Exception as e: handler e]: what the body has
    yielded stays yielded. *)
Definition try_except {Y A} (body : M Y A) (handler : string -> M Y A) : M Y A :=
  fun w =>
    match body w with
    | (ys, Ok a, w1) => (ys, Ok a, w1)
    | (ys, Raise e, w1) =>
        match handler e w1 with (ys', r, w2) => (ys ++ ys', r, w2) end
    end.

(** The body of a loop run over the items, threading the local variables
    [s] the body assigns. *)
Fixpoint loop {X Y S} (body : X -> S -> M Y S) (xs : list X) (s : S) : M Y S :=
  match xs with
  | [] => ret s
  | x :: rest => s' <- body x s ;; loop body rest s'
  end.

(** [for x in it: body].  The loop sees the values the iterator yields
    and nothing else: a generator's return value travels with
    [StopIteration] and is dropped by the [for] statement; an exception
    of the iterator leaves the loop after the items before it.  The
    iterator is run to its end first, which is the lazy interleaving
    whenever the body touches the world only by yielding. *)
Definition for_in {X R Y S} (it : M X R) (s0 : S) (body : X -> S -> M Y S) : M Y S :=
  fun w =>
    match it w with
    | (xs, r, w1) =>
        match loop body xs s0 w1 with
        | (ys, Ok s, w2) =>
            match r with
            | Ok _ => (ys, Ok s, w2)
            | Raise e => (ys, Raise e, w2)
            end
        | (ys, Raise e, w2) => (ys, Raise e, w2)
        end
    end.

(** A collaborator's stream as an iterator. *)
Definition iter {X} (s : stream X) : M X unit :=
  fun w => (fst s, match snd s with None => Ok tt | Some e => Raise e end, w).

(** Appends a collaborator call to the log. *)
Definition log {Y} (c : Call) : M Y unit :=
  fun w => ([], Ok tt, mkWorld (heap w) (calls w ++ [c]) (_agent w)).

(** A call whose outcome is [r]. *)
Definition outcome {Y A} (r : result A) : M Y A := fun w => ([], r, w).

(** Reads the State object a reference points to.  References come from
    [new_RAGState], so the lookup succeeds in every run of the program. *)
Definition deref {Y} (r : ref) : M Y RAGState :=
  fun w =>
    match heap w !! r with
    | Some st => ([], Ok st, w)
    | None => ([], Raise "dangling reference", w)
    end.

(** [RAGState(question=q, retrieved_docs=docs, answer=a)]: a new object
    at a fresh address. *)
Definition new_RAGState {Y} (q : string) (docs : list Document) (a : pyval) : M Y ref :=
  fun w =>
    ([], Ok (length (heap w)),
     mkWorld (heap w ++ [mkRAGState q docs a]) (calls w) (_agent w)).

(** ** src/nodes/nodes.py *)

Module Nodes.

Record RAGNodes : Type := mkRAGNodes {
  retriever : Retriever;
  llm : LLM
}.

(** [self.retriever.invoke(q)]. *)
Definition invoke_retriever {Y} (self : RAGNodes) (q : string) : M Y (list Document) :=
  _ <- log (RetrieverInvoke q) ;; outcome (retriever_invoke (retriever self) q).

Definition retrieve_docs (self : RAGNodes) (state : ref) : M Empty_set ref :=
  st <- deref state ;;
  docs <- invoke_retriever self (question st) ;;
  new_RAGState (question st) docs PyNone.

(** ["\n\n".join([doc.page_content for doc in docs])]. *)
Definition context_of (docs : list Document) : string :=
  str_join (nl +:+ nl) (map page_content docs).

(** The f-string prompt. *)
Definition prompt_of (context q : string) : string :=
  "Answer the question based on the context." +:+ nl +:+ nl
  +:+ "Context:" +:+ nl +:+ context +:+ nl +:+ nl
  +:+ "Question: " +:+ q.

Definition generate_answer (self : RAGNodes) (state : ref) : M Empty_set ref :=
  st <- deref state ;;
  let context := context_of (retrieved_docs st) in
  let prompt := prompt_of context (question st) in
  _ <- log (LlmInvoke prompt) ;;
  response_content <- outcome (llm_invoke (llm self) prompt) ;;
  new_RAGState (question st) (retrieved_docs st) (PyStr response_content).

(** [hasattr(chunk, 'content') and chunk.content]: the text when it is
    there and truthy. *)
Definition truthy_attr (a : option pyval) : option string :=
  match a with
  | Some (PyStr (String c s)) => Some (String c s)
  | _ => None
  end.

Definition content_attr (chunk : Chunk) : option pyval :=
  match chunk with ChunkObj c _ => c | ChunkStr _ => None end.

Definition text_attr (chunk : Chunk) : option pyval :=
  match chunk with ChunkObj _ t => t | ChunkStr _ => None end.

(** The body of the [for chunk in self.llm.stream(prompt)] loop. *)
Definition stream_body (chunk : Chunk) (full_answer : string) : M string string :=
  match truthy_attr (content_attr chunk) with
  | Some c =>
      let full_answer := full_answer +:+ c in
      _ <- yield full_answer ;; ret full_answer
  | None =>
      match truthy_attr (text_attr chunk) with
      | Some t =>
          let full_answer := full_answer +:+ t in
          _ <- yield full_answer ;; ret full_answer
      | None =>
          match chunk with
          | ChunkStr s =>
              let full_answer := full_answer +:+ s in
              _ <- yield full_answer ;; ret full_answer
          | ChunkObj _ _ => ret full_answer
          end
      end
  end.

(** [self.llm.stream(prompt)]. *)
Definition stream_llm (self : RAGNodes) (prompt : string) : M Chunk unit :=
  _ <- log (LlmStream prompt) ;; iter (llm_stream (llm self) prompt).

Definition generate_answer_streaming (self : RAGNodes) (state : ref) : M string ref :=
  st <- deref state ;;
  let context := context_of (retrieved_docs st) in
  let prompt := prompt_of context (question st) in
  full_answer <-
    try_except
      (for_in (stream_llm self prompt) "" stream_body)
      (fun e =>
         let error_msg := "Error during streaming: " +:+ e in
         _ <- yield error_msg ;;
         ret error_msg) ;;
  new_RAGState (question st) (retrieved_docs st) (PyStr full_answer).

End Nodes.

(** ** src/nodes/reactnode.py *)

Module ReactNode.

Record RAGNodes : Type := mkRAGNodes {
  retriever : Retriever;
  llm : LLM
}.

(** [langchain_core.tools.Tool]. *)
Record Tool : Type := mkTool {
  name : string;
  description : string;
  func : string -> M Empty_set string
}.

Section WithLibraries.

(** The two library entry points the module calls: the agent factory
    and the Wikipedia query runner ([wiki.run]). *)
Variable create_react_agent : LLM -> list Tool -> string -> Agent.
Variable wiki_run : string -> result string.

(** [self.retriever.invoke(q)]. *)
Definition invoke_retriever {Y} (self : RAGNodes) (q : string) : M Y (list Document) :=
  _ <- log (RetrieverInvoke q) ;; outcome (retriever_invoke (retriever self) q).

Definition retrieve_docs (self : RAGNodes) (state : ref) : M Empty_set ref :=
  st <- deref state ;;
  docs <- invoke_retriever self (question st) ;;
  new_RAGState (question st) docs PyNone.

(** [enumerate(l, start=1)]. *)
Definition enumerate1 {A} (l : list A) : list (nat * A) :=
  combine (seq 1 (length l)) l.

(** [d.metadata if hasattr(d, "metadata") else {}]. *)
Definition meta_of (d : Document) : gmap string pyval :=
  match metadata d with Some m => m | None => ∅ end.

(** [meta.get("title") or meta.get("source") or f"doc_{i}"]. *)
Definition title_of (i : nat) (d : Document) : pyval :=
  let meta := meta_of d in
  py_or (py_or (dict_get meta "title") (dict_get meta "source"))
        (PyStr ("doc_" +:+ str_of_nat i)).

(** [f"[{i}] {title}\n{d.page_content}"]. *)
Definition format_doc (i : nat) (d : Document) : string :=
  "[" +:+ str_of_nat i +:+ "] " +:+ py_str (title_of i d) +:+ nl +:+ page_content d.

Definition retriever_tool_fn (self : RAGNodes) (query : string) : M Empty_set string :=
  docs <- invoke_retriever self query ;;
  match docs with
  | [] => ret "No documents found."
  | _ :: _ =>
      let merged :=
        fold_left (fun merged id => merged ++ [format_doc (fst id) (snd id)])
                  (enumerate1 (take 8 docs)) [] in
      ret (str_join (nl +:+ nl) merged)
  end.

Definition _build_tools (self : RAGNodes) : list Tool :=
  let retriever_tool :=
    mkTool "retriever" "Fetch passages from indexed corpus."
           (retriever_tool_fn self) in
  let wikipedia_tool :=
    mkTool "wikipedia" "Search Wikipedia for general knowledge."
           (fun q => outcome (wiki_run q)) in
  [retriever_tool; wikipedia_tool].

Definition system_prompt : string :=
  "You are a helpful RAG agent. "
  +:+ "Prefer 'retriever' for user-provided docs; use 'wikipedia' for general knowledge. "
  +:+ "Return only the final useful answer.".

Definition _build_agent {Y} (self : RAGNodes) : M Y unit :=
  let tools := _build_tools self in
  _ <- log CreateReactAgent ;;
  fun w =>
    ([], Ok tt,
     mkWorld (heap w) (calls w)
             (Some (create_react_agent (llm self) tools system_prompt))).

(** [if self._agent is None: self._build_agent()], then [self._agent]. *)
Definition ensure_agent {Y} (self : RAGNodes) : M Y Agent :=
  slot <- (fun w => ([], Ok (_agent w), w)) ;;
  _ <- match slot with
       | None => _build_agent self
       | Some _ => ret tt
       end ;;
  fun w =>
    match _agent w with
    | Some a => ([], Ok a, w)
    | None => ([], Raise "'NoneType' object has no attribute 'invoke'", w)
    end.

(** [agent.invoke({"messages": [HumanMessage(content=q)]})]. *)
Definition invoke_agent {Y} (agent : Agent) (q : string)
  : M Y (gmap string (list Message)) :=
  _ <- log (AgentInvoke q) ;; outcome (agent_invoke agent q).

(** [agent.stream({"messages": [HumanMessage(content=q)]})]. *)
Definition stream_agent (agent : Agent) (q : string)
  : M (gmap string (list Message)) unit :=
  _ <- log (AgentStream q) ;; iter (agent_stream agent q).

(** [d.get("messages", [])]. *)
Definition messages_of (d : gmap string (list Message)) : list Message :=
  match d !! "messages" with Some ms => ms | None => [] end.

(** [getattr(m, "content", dflt)]. *)
Definition getattr_content (m : Message) (dflt : pyval) : pyval :=
  match content m with Some v => v | None => dflt end.

Definition generate_answer (self : RAGNodes) (state : ref) : M Empty_set ref :=
  agent <- ensure_agent self ;;
  st <- deref state ;;
  res <- invoke_agent agent (question st) ;;
  let messages := messages_of res in
  let answer :=
    match last messages with
    | Some answer_msg => getattr_content answer_msg PyNone
    | None => PyNone
    end in
  new_RAGState (question st) (retrieved_docs st)
               (py_or answer (PyStr "Could not generate answer.")).

(** [hasattr(m, 'response_metadata') and
     m.response_metadata.get('finish_reason')]. *)
Definition has_finish_reason (m : Message) : bool :=
  match response_metadata m with
  | Some md => truthy (dict_get md "finish_reason")
  | None => false
  end.

(** The body of the [for chunk in self._agent.stream(...)] loop;
    [full_answer] is the local it assigns. *)
Definition stream_body (chunk : gmap string (list Message)) (full_answer : pyval)
  : M pyval pyval :=
  match last (messages_of chunk) with
  | Some latest_message =>
      match content latest_message with
      | Some c =>
          if truthy c then
            if has_finish_reason latest_message then
              let full_answer := c in
              _ <- yield full_answer ;; ret full_answer
            else
              _ <- yield c ;;
              let full_answer := c in
              ret full_answer
          else ret full_answer
      | None => ret full_answer
      end
  | None => ret full_answer
  end.

(** The [if not full_answer:] block after the loop. *)
Definition fallback (agent : Agent) (q : string) (full_answer : pyval)
  : M pyval pyval :=
  if truthy full_answer then ret full_answer
  else
    res <- invoke_agent agent q ;;
    let messages := messages_of res in
    match last messages with
    | Some answer_msg =>
        let full_answer :=
          getattr_content answer_msg (PyStr "Could not generate answer.") in
        _ <- yield full_answer ;; ret full_answer
    | None => ret full_answer
    end.

Definition generate_answer_streaming (self : RAGNodes) (state : ref) : M pyval ref :=
  agent <- ensure_agent self ;;
  try_except
    (st <- deref state ;;
     full_answer <- for_in (stream_agent agent (question st)) (PyStr "") stream_body ;;
     full_answer <- fallback agent (question st) full_answer ;;
     new_RAGState (question st) (retrieved_docs st) full_answer)
    (fun e =>
       let error_msg := "Error generating answer: " +:+ e in
       _ <- yield (PyStr error_msg) ;;
       st <- deref state ;;
       new_RAGState (question st) (retrieved_docs st) (PyStr error_msg)).

End WithLibraries.

End ReactNode.

(** ** src/graph_builder/graph_builder.py *)

Module GraphBuilder.

(** What a variable of the orchestrator may hold: a value received from
    the generation stage, or a State object. *)
Inductive pyobj : Type :=
  | ObjVal (v : pyval)
  | ObjState (r : ref).

(** [if x:] on such a variable; an object is truthy. *)
Definition obj_truthy (o : pyobj) : bool :=
  match o with ObjVal v => truthy v | ObjState _ => true end.

(** A progress event: the dictionary with keys [step], [content] and
    [state]. *)
Record Event : Type := mkEvent {
  step : string;
  ev_content : pyval;
  ev_state : pyobj
}.

Record GraphBuilder : Type := mkGraphBuilder {
  nodes : ReactNode.RAGNodes
}.

Section WithLibraries.

Variable create_react_agent : LLM -> list ReactNode.Tool -> string -> Agent.
Variable wiki_run : string -> result string.

(** [o.answer]. *)
Definition getattr_answer {Y} (o : pyobj) : M Y pyval :=
  match o with
  | ObjState r => st <- deref r ;; ret (answer st)
  | ObjVal PyNone => raise "'NoneType' object has no attribute 'answer'"
  | ObjVal (PyStr _) => raise "'str' object has no attribute 'answer'"
  end.

(** The body of the [for answer_chunk in ...] loop; [final_state] is
    the local it assigns. *)
Definition relay (state_after_retrieval : ref) (answer_chunk : pyval)
    (final_state : pyobj) : M Event pyobj :=
  if is_str answer_chunk then
    _ <- yield (mkEvent "generating" answer_chunk (ObjState state_after_retrieval)) ;;
    ret final_state
  else
    ret (ObjVal answer_chunk).

Definition run_streaming (self : GraphBuilder) (q : string) : M Event unit :=
  _ <- yield (mkEvent "retrieving" (PyStr "Retrieving relevant documents...")
                      (ObjVal PyNone)) ;;
  docs <- ReactNode.invoke_retriever (nodes self) q ;;
  state_after_retrieval <- new_RAGState q docs PyNone ;;
  _ <- yield (mkEvent "retrieving"
                      (PyStr ("Found " +:+ str_of_nat (length docs)
                              +:+ " relevant documents"))
                      (ObjState state_after_retrieval)) ;;
  _ <- yield (mkEvent "generating" (PyStr "") (ObjState state_after_retrieval)) ;;
  final_state <-
    for_in (ReactNode.generate_answer_streaming create_react_agent wiki_run
              (nodes self) state_after_retrieval)
           (ObjVal PyNone)
           (relay state_after_retrieval) ;;
  if obj_truthy final_state then
    a <- getattr_answer final_state ;;
    yield (mkEvent "complete" a final_state)
  else ret tt.

End WithLibraries.

End GraphBuilder.

(** ** src/streamlit_app.py: the generator inside [stream_response] *)

Module StreamlitApp.

(** The [context_parts] loop over [enumerate(docs[:5], 1)]; the entries
    are the f-string of the retrieval-search tool. *)
Definition context_parts (docs : list Document) : list string :=
  fold_left (fun context_parts id =>
               context_parts ++ [ReactNode.format_doc (fst id) (snd id)])
            (ReactNode.enumerate1 (take 5 docs)) [].

(** The f-string prompt. *)
Definition prompt_of (context q : string) : string :=
  "You are a helpful assistant. Answer the question based on the provided context. "
  +:+ "If the context doesn't contain enough information, you may use your general "
  +:+ "knowledge but indicate when you're doing so." +:+ nl +:+ nl
  +:+ "Context:" +:+ nl +:+ context +:+ nl +:+ nl
  +:+ "Question: " +:+ q +:+ nl +:+ nl
  +:+ "Please provide a comprehensive and helpful answer:".

(** The body of the [for chunk in rag_system.nodes.llm.stream(prompt)]
    loop; it assigns no local. *)
Definition stream_body (chunk : Chunk) (_ : unit) : M string unit :=
  match Nodes.truthy_attr (Nodes.content_attr chunk) with
  | Some c => yield c
  | None =>
      match Nodes.truthy_attr (Nodes.text_attr chunk) with
      | Some t => yield t
      | None =>
          match chunk with
          | ChunkStr s => yield s
          | ChunkObj _ _ => ret tt
          end
      end
  end.

(** [generate_stream()], closed over [docs], [question] and the language
    model of [rag_system.nodes]. *)
Definition generate_stream (llm : LLM) (docs : list Document) (q : string)
  : M string unit :=
  let context := str_join (nl +:+ nl) (context_parts docs) in
  let prompt := prompt_of context q in
  for_in (_ <- log (LlmStream prompt) ;; iter (llm_stream llm prompt)) tt stream_body.

End StreamlitApp.

(** * Properties *)

(** ** Vocabulary of the statements *)

(** The running concatenations of a list of fragments, starting from
    [acc]: after each fragment, everything received so far. *)
Fixpoint running (acc : string) (fs : list string) : list string :=
  match fs with
  | [] => []
  | f :: rest => (acc +:+ f) :: running (acc +:+ f) rest
  end.

(** The cumulative strings of a fragment list: the concatenation of its
    first [k] fragments, for [k] from 1 to its length. *)
Definition cumulative (fs : list string) : list string :=
  map (fun k => String.concat "" (take k fs)) (seq 1 (length fs)).

(** An attribute that is missing, [None] or the empty string. *)
Definition blank_attr (a : option pyval) : Prop :=
  a = None \/ a = Some PyNone \/ a = Some (PyStr "").

(** A chunk that carries the non-empty fragment [f] in one of the three
    recognised shapes: a [content] attribute, a [text] attribute (the
    [content] being blank), or a plain string. *)
Inductive carries : Chunk -> string -> Prop :=
  | carries_content f t :
      f <> "" -> carries (ChunkObj (Some (PyStr f)) t) f
  | carries_text c f :
      blank_attr c -> f <> "" -> carries (ChunkObj c (Some (PyStr f))) f
  | carries_str f :
      f <> "" -> carries (ChunkStr f) f.

(** The text a chunk of the simple stream adds to the answer, if any. *)
Definition chunk_fragment (chunk : Chunk) : option string :=
  match Nodes.truthy_attr (Nodes.content_attr chunk) with
  | Some c => Some c
  | None =>
      match Nodes.truthy_attr (Nodes.text_attr chunk) with
      | Some t => Some t
      | None => match chunk with ChunkStr s => Some s | ChunkObj _ _ => None end
      end
  end.

(** The fragments a stream of chunks adds, in order. *)
Fixpoint fragments (chunks : list Chunk) : list string :=
  match chunks with
  | [] => []
  | chunk :: rest =>
      match chunk_fragment chunk with
      | Some f => f :: fragments rest
      | None => fragments rest
      end
  end.

(** The non-empty content of the last message of a reasoning-loop event,
    if the event has one. *)
Definition event_content (chunk : gmap string (list Message)) : option string :=
  match last (ReactNode.messages_of chunk) with
  | Some m =>
      match content m with
      | Some (PyStr (String a s)) => Some (String a s)
      | _ => None
      end
  | None => None
  end.

(** The contents of the content-bearing events of a stream, in order. *)
Fixpoint contents (events : list (gmap string (list Message))) : list string :=
  match events with
  | [] => []
  | chunk :: rest =>
      match event_content chunk with
      | Some c => c :: contents rest
      | None => contents rest
      end
  end.

(** The agent a node object works with: the one already built, or the
    one the factory returns on first use. *)
Definition agent_of (create_react_agent : LLM -> list ReactNode.Tool -> string -> Agent)
    (wiki_run : string -> result string) (self : ReactNode.RAGNodes) (w : World) : Agent :=
  match _agent w with
  | Some a => a
  | None =>
      create_react_agent (ReactNode.llm self)
        (ReactNode._build_tools wiki_run self) ReactNode.system_prompt
  end.

(** The log entry of the lazy construction of the agent. *)
Definition build_calls (w : World) : list Call :=
  match _agent w with Some _ => [] | None => [CreateReactAgent] end.

(** The world once the agent is there. *)
Definition with_agent (create_react_agent : LLM -> list ReactNode.Tool -> string -> Agent)
    (wiki_run : string -> result string) (self : ReactNode.RAGNodes) (w : World) : World :=
  mkWorld (heap w)
          (calls w ++ build_calls w)
          (Some (agent_of create_react_agent wiki_run self w)).

(** The world after a tool-augmented generation on the state [st] that
    answered [a] and logged [log_tail] after the agent was there. *)
Definition react_final (create_react_agent : LLM -> list ReactNode.Tool -> string -> Agent)
    (wiki_run : string -> result string) (self : ReactNode.RAGNodes) (w : World)
    (st : RAGState) (a : pyval) (log_tail : list Call) : World :=
  let w1 := with_agent create_react_agent wiki_run self w in
  mkWorld (heap w ++ [mkRAGState (question st) (retrieved_docs st) a])
          (calls w1 ++ log_tail) (_agent w1).

(** The number of blocking invocations of a generation backend in a log. *)
Definition blocking_invocations (cs : list Call) : nat :=
  length (List.filter (fun c => match c with
                                | LlmInvoke _ | AgentInvoke _ => true
                                | _ => false
                                end) cs).

(** ** Sample inputs *)

Definition doc_a : Document :=
  mkDocument "alpha" (Some (<["title" := PyStr "Intro"]> ∅)).
Definition doc_b : Document := mkDocument "beta" None.

Definition retriever_two : Retriever := mkRetriever (fun _ => Ok [doc_a; doc_b]).
Definition retriever_none : Retriever := mkRetriever (fun _ => Ok []).

(** A world holding one State object, at address 0. *)
Definition sample_state : RAGState := mkRAGState "Q" [doc_a; doc_b] PyNone.
Definition sample_world : World := mkWorld [sample_state] [] None.

(** A chunk object with a [content] attribute only. *)
Definition content_chunk (s : string) : Chunk := ChunkObj (Some (PyStr s)) None.

Definition llm_hello : LLM :=
  mkLLM (fun _ => Ok "Hello") (fun _ => ([content_chunk "He"; content_chunk "llo"], None)).
Definition llm_failing : LLM :=
  mkLLM (fun _ => Ok "Hello") (fun _ => ([content_chunk "He"], Some "connection reset")).
(** A backend whose only chunk has an empty [content] and a [text]. *)
Definition llm_text_only : LLM :=
  mkLLM (fun _ => Ok "x") (fun _ => ([ChunkObj (Some (PyStr "")) (Some (PyStr "x"))], None)).
(** A backend that streams plain strings, the second one empty. *)
Definition llm_empty_str : LLM :=
  mkLLM (fun _ => Ok "He") (fun _ => ([ChunkStr "He"; ChunkStr ""], None)).
(** The same stream as [llm_hello] with an empty chunk object in between. *)
Definition llm_hello_gap : LLM :=
  mkLLM (fun _ => Ok "Hello")
        (fun _ => ([content_chunk "He"; ChunkObj (Some (PyStr "")) None;
                    content_chunk "llo"], None)).

(** A message with a [content] only, and one that also carries a
    completion marker. *)
Definition msg (s : string) : Message := mkMessage (Some (PyStr s)) None.
Definition msg_final (s : string) : Message :=
  mkMessage (Some (PyStr s)) (Some (<["finish_reason" := PyStr "stop"]> ∅)).

(** The dictionary [{"messages": ms}]. *)
Definition messages_dict (ms : list Message) : gmap string (list Message) :=
  <["messages" := ms]> ∅.

(** A reasoning loop whose events carry ["A"] and then ["B"]. *)
Definition agent_a_b : Agent :=
  mkAgent (fun _ => Ok (messages_dict [msg "AB"]))
          (fun _ => ([messages_dict [msg "A"]; messages_dict [msg_final "B"]], None)).
(** A reasoning loop whose events are the snapshots ["A"] and ["AB"]. *)
Definition agent_snapshots : Agent :=
  mkAgent (fun _ => Ok (messages_dict [msg "AB"]))
          (fun _ => ([messages_dict [msg "A"]; messages_dict [msg_final "AB"]], None)).
(** One whose stream carries no content and whose blocking invocation
    answers. *)
Definition agent_late : Agent :=
  mkAgent (fun _ => Ok (messages_dict [msg "first"; msg "late"]))
          (fun _ => ([∅; messages_dict []], None)).
(** One whose stream is empty and whose blocking invocation returns no
    message. *)
Definition agent_mute : Agent :=
  mkAgent (fun _ => Ok ∅) (fun _ => ([], None)).

(** A factory that returns the given agent, and a Wikipedia runner. *)
Definition factory_of (a : Agent) : LLM -> list ReactNode.Tool -> string -> Agent :=
  fun _ _ _ => a.
Definition wiki_stub : string -> result string := fun _ => Ok "".

(** An orchestrator over two passages. *)
Definition graph_two : GraphBuilder.GraphBuilder :=
  GraphBuilder.mkGraphBuilder (ReactNode.mkRAGNodes retriever_two llm_hello).

(** The events every run starts with when two passages are found. *)
Definition opening_events : list GraphBuilder.Event :=
  [GraphBuilder.mkEvent "retrieving" (PyStr "Retrieving relevant documents...")
     (GraphBuilder.ObjVal PyNone);
   GraphBuilder.mkEvent "retrieving" (PyStr "Found 2 relevant documents")
     (GraphBuilder.ObjState 0);
   GraphBuilder.mkEvent "generating" (PyStr "") (GraphBuilder.ObjState 0)].

(** The strings among the values a generator yields, in order. *)
Fixpoint strs (ys : list pyval) : list string :=
  match ys with
  | [] => []
  | PyStr t :: rest => t :: strs rest
  | PyNone :: rest => strs rest
  end.

(** The number of times a log records the construction of the agent. *)
Definition agent_builds (cs : list Call) : nat :=
  length (List.filter (fun c => match c with CreateReactAgent => true | _ => false end) cs).

(** The three events a run emits before any fragment, for [n] passages
    and the post-retrieval state [s]. *)
Definition opening (n : nat) (s : ref) : list GraphBuilder.Event :=
  [GraphBuilder.mkEvent "retrieving" (PyStr "Retrieving relevant documents...")
     (GraphBuilder.ObjVal PyNone);
   GraphBuilder.mkEvent "retrieving"
     (PyStr ("Found " +:+ str_of_nat n +:+ " relevant documents"))
     (GraphBuilder.ObjState s);
   GraphBuilder.mkEvent "generating" (PyStr "") (GraphBuilder.ObjState s)].

(** The event that re-wraps the fragment [t]. *)
Definition fragment_event (s : ref) (t : string) : GraphBuilder.Event :=
  GraphBuilder.mkEvent "generating" (PyStr t) (GraphBuilder.ObjState s).

(** Collaborators that fail. *)
Definition retriever_down : Retriever := mkRetriever (fun _ => Raise "index offline").
Definition llm_down : LLM :=
  mkLLM (fun _ => Raise "rate limited") (fun _ => ([], Some "rate limited")).
(** A reasoning loop whose stream breaks after one event. *)
Definition agent_broken : Agent :=
  mkAgent (fun _ => Raise "tool error")
          (fun _ => ([messages_dict [msg "partial"]], Some "socket closed")).
(** One whose stream is silent and whose blocking invocation fails. *)
Definition agent_down : Agent :=
  mkAgent (fun _ => Raise "tool error") (fun _ => ([], None)).
(** One whose blocking invocation answers with a [None] content. *)
Definition agent_none : Agent :=
  mkAgent (fun _ => Ok (messages_dict [mkMessage (Some PyNone) None]))
          (fun _ => ([], None)).

(** Nine passages, to exercise the limits of 5 and 8. *)
Definition nine_docs : list Document :=
  map (fun b => mkDocument b None) ["a"; "b"; "c"; "d"; "e"; "f"; "g"; "h"; "i"].

(** ** The store *)

Lemma lookup_alloc_old (h : list RAGState) (o st : RAGState) (r : ref) :
  h !! r = Some st -> (h ++ [o]) !! r = Some st.
Proof. intros H. apply lookup_app_l_Some. exact H. Qed.

Lemma lookup_alloc_new (h : list RAGState) (o : RAGState) :
  (h ++ [o]) !! length h = Some o.
Proof. apply list_lookup_middle. reflexivity. Qed.

Lemma alloc_fresh (h : list RAGState) (st : RAGState) (r : ref) :
  h !! r = Some st -> r <> length h.
Proof. intros H ->. apply lookup_lt_Some in H. lia. Qed.

Lemma deref_ok {Y} (w : World) (r : ref) (st : RAGState) :
  heap w !! r = Some st -> deref (Y:=Y) r w = ([], Ok st, w).
Proof. intros H. unfold deref. rewrite H. reflexivity. Qed.

(** ** Retrieval stage *)

(** C7: [retrieve_docs] (both node modules) issues one query on the
    question of the input state and returns a new State object holding
    exactly the passages of that query, the same question and no answer;
    the object is allocated at a fresh address and every object of the
    store, the input state among them, is left as it was. *)
Theorem C7_retrieve_docs_new_state :
  forall (r : Retriever) (l : LLM) (w : World) (state : ref) (st : RAGState)
         (docs : list Document),
    heap w !! state = Some st ->
    retriever_invoke r (question st) = Ok docs ->
    let w' := mkWorld (heap w ++ [mkRAGState (question st) docs PyNone])
                      (calls w ++ [RetrieverInvoke (question st)]) (_agent w) in
    let new := length (heap w) in
    Nodes.retrieve_docs (Nodes.mkRAGNodes r l) state w = ([], Ok new, w')
    /\ ReactNode.retrieve_docs (ReactNode.mkRAGNodes r l) state w = ([], Ok new, w')
    /\ heap w' !! new = Some (mkRAGState (question st) docs PyNone)
    /\ new <> state
    /\ heap w' !! state = Some st
    /\ (forall a o, heap w !! a = Some o -> heap w' !! a = Some o).
Proof.
  intros r l w state st docs Hst Hq w' new.
  repeat split.
  - unfold Nodes.retrieve_docs, Nodes.invoke_retriever, bind, log, outcome, new_RAGState.
    rewrite (deref_ok w state st Hst). simpl. rewrite Hq. reflexivity.
  - unfold ReactNode.retrieve_docs, ReactNode.invoke_retriever, bind, log, outcome,
      new_RAGState.
    rewrite (deref_ok w state st Hst). simpl. rewrite Hq. reflexivity.
  - apply lookup_alloc_new.
  - intros E. symmetry in E. revert E. apply (alloc_fresh _ _ _ Hst).
  - apply lookup_alloc_old, Hst.
  - intros a o Ha. apply lookup_alloc_old, Ha.
Qed.

Lemma C7_retrieve_docs_new_state_witness :
  Nodes.retrieve_docs (Nodes.mkRAGNodes retriever_two llm_hello) 0 sample_world
    = ([], Ok 1,
       mkWorld [sample_state; mkRAGState "Q" [doc_a; doc_b] PyNone]
               [RetrieverInvoke "Q"] None)
  /\ ReactNode.retrieve_docs (ReactNode.mkRAGNodes retriever_two llm_hello) 0 sample_world
     = ([], Ok 1,
        mkWorld [sample_state; mkRAGState "Q" [doc_a; doc_b] PyNone]
                [RetrieverInvoke "Q"] None).
Proof.
  destruct (C7_retrieve_docs_new_state retriever_two llm_hello sample_world 0
              sample_state [doc_a; doc_b] eq_refl eq_refl)
    as [Hsimple [Hreact _]].
  split; [exact Hsimple | exact Hreact].
Defined.

(** ** Text *)

Lemma str_app_nil_r (s : string) : s +:+ "" = s.
Proof.
  induction s as [|a s IH]; [reflexivity|].
  change (String a (s +:+ "") = String a s). now rewrite IH.
Qed.

Lemma str_app_assoc (a b c : string) : (a +:+ b) +:+ c = a +:+ (b +:+ c).
Proof.
  induction a as [|x a IH]; [reflexivity|].
  change (String x ((a +:+ b) +:+ c) = String x (a +:+ (b +:+ c))). now rewrite IH.
Qed.

Lemma concat_empty_cons (x : string) (xs : list string) :
  String.concat "" (x :: xs) = x +:+ String.concat "" xs.
Proof. destruct xs; simpl; [symmetry; apply str_app_nil_r | reflexivity]. Qed.

Lemma concat_empty_app (l1 l2 : list string) :
  String.concat "" (l1 ++ l2) = String.concat "" l1 +:+ String.concat "" l2.
Proof.
  induction l1 as [|x l1 IH].
  - reflexivity.
  - rewrite <- app_comm_cons, !concat_empty_cons, IH, str_app_assoc. reflexivity.
Qed.

Lemma cumulative_cons (f : string) (fs : list string) :
  cumulative (f :: fs) = f :: map (fun c => f +:+ c) (cumulative fs).
Proof.
  unfold cumulative. simpl length. rewrite <- cons_seq. simpl map. f_equal.
  rewrite <- seq_shift, !map_map. apply map_ext. intros k.
  simpl take. apply concat_empty_cons.
Qed.

Lemma running_cumulative (acc : string) (fs : list string) :
  running acc fs = map (fun c => acc +:+ c) (cumulative fs).
Proof.
  revert acc. induction fs as [|f fs IH]; intros acc.
  - reflexivity.
  - rewrite cumulative_cons. simpl. f_equal. rewrite IH, map_map.
    apply map_ext. intros c. apply str_app_assoc.
Qed.

Lemma running_from_empty (fs : list string) : running "" fs = cumulative fs.
Proof. rewrite running_cumulative. apply map_id. Qed.

Lemma cumulative_length (fs : list string) : length (cumulative fs) = length fs.
Proof. unfold cumulative. now rewrite length_map, length_seq. Qed.

Lemma cumulative_lookup (fs : list string) (i : nat) (c : string) :
  cumulative fs !! i = Some c -> c = String.concat "" (take (S i) fs) /\ i < length fs.
Proof.
  intros H. assert (Hi : i < length fs).
  { apply lookup_lt_Some in H. now rewrite cumulative_length in H. }
  split; [|exact Hi]. unfold cumulative in H.
  rewrite list_lookup_fmap in H.
  rewrite (lookup_seq_lt 1 (length fs) i Hi) in H. simpl in H. congruence.
Qed.

(** ** Generation stage, simple mode *)

Lemma truthy_attr_blank (a : option pyval) :
  blank_attr a -> Nodes.truthy_attr a = None.
Proof. intros [-> | [-> | ->]]; reflexivity. Qed.

Lemma truthy_attr_str (f : string) :
  f <> "" -> Nodes.truthy_attr (Some (PyStr f)) = Some f.
Proof. destruct f; [congruence | reflexivity]. Qed.

Lemma carries_fragment (chunk : Chunk) (f : string) :
  carries chunk f -> chunk_fragment chunk = Some f.
Proof.
  intros [f' t Hf | c f' Hc Hf | f' Hf];
    unfold chunk_fragment, Nodes.content_attr, Nodes.text_attr.
  - now rewrite truthy_attr_str.
  - now rewrite (truthy_attr_blank c Hc), truthy_attr_str.
  - reflexivity.
Qed.

Lemma carries_all_fragments (chunks : list Chunk) (fs : list string) :
  Forall2 carries chunks fs -> fragments chunks = fs.
Proof.
  induction 1 as [|chunk f chunks fs Hc _ IH]; simpl.
  - reflexivity.
  - now rewrite (carries_fragment chunk f Hc), IH.
Qed.

Lemma stream_body_fragment (chunk : Chunk) (acc : string) (w : World) :
  Nodes.stream_body chunk acc w =
  match chunk_fragment chunk with
  | Some f => ([acc +:+ f], Ok (acc +:+ f), w)
  | None => ([], Ok acc, w)
  end.
Proof.
  unfold Nodes.stream_body, chunk_fragment.
  destruct (Nodes.truthy_attr (Nodes.content_attr chunk)); [reflexivity|].
  destruct (Nodes.truthy_attr (Nodes.text_attr chunk)); [reflexivity|].
  destruct chunk; reflexivity.
Qed.

Lemma loop_stream_body (chunks : list Chunk) (acc : string) (w : World) :
  loop Nodes.stream_body chunks acc w =
  (running acc (fragments chunks),
   Ok (acc +:+ String.concat "" (fragments chunks)), w).
Proof.
  revert acc. induction chunks as [|chunk chunks IH]; intros acc; simpl.
  - unfold ret. now rewrite str_app_nil_r.
  - unfold bind. rewrite stream_body_fragment.
    destruct (chunk_fragment chunk) as [f|]; rewrite IH.
    + rewrite concat_empty_cons, <- str_app_assoc. reflexivity.
    + reflexivity.
Qed.

(** The whole simple-mode generator, for any stream of the backend. *)
Lemma simple_streaming_run (r : Retriever) (l : LLM) (w : World) (state : ref)
    (st : RAGState) (chunks : list Chunk) (ending : option string) :
  heap w !! state = Some st ->
  let prompt := Nodes.prompt_of (Nodes.context_of (retrieved_docs st)) (question st) in
  llm_stream l prompt = (chunks, ending) ->
  let fs := fragments chunks in
  let final := match ending with
               | None => String.concat "" fs
               | Some e => "Error during streaming: " +:+ e
               end in
  Nodes.generate_answer_streaming (Nodes.mkRAGNodes r l) state w =
  (cumulative fs ++ match ending with None => [] | Some _ => [final] end,
   Ok (length (heap w)),
   mkWorld (heap w ++ [mkRAGState (question st) (retrieved_docs st) (PyStr final)])
           (calls w ++ [LlmStream prompt]) (_agent w)).
Proof.
  intros Hst prompt Hs fs final.
  unfold Nodes.generate_answer_streaming, bind at 1.
  rewrite (deref_ok w state st Hst). fold prompt.
  unfold try_except, for_in, Nodes.stream_llm, bind at 1, log, iter. simpl.
  rewrite Hs. simpl. rewrite loop_stream_body, running_from_empty. fold fs.
  destruct ending as [e|]; simpl.
  - unfold new_RAGState. simpl. now rewrite app_nil_r.
  - unfold new_RAGState. simpl. now rewrite !app_nil_r.
Qed.

Lemma blocking_invocations_app (cs cs' : list Call) :
  blocking_invocations (cs ++ cs') = blocking_invocations cs + blocking_invocations cs'.
Proof. unfold blocking_invocations. now rewrite List.filter_app, length_app. Qed.

(** The context block lists the passage bodies in the order of the
    passages, two line feeds between neighbours. *)
Lemma context_of_order (d d' : Document) (ds : list Document) :
  Nodes.context_of [] = ""
  /\ Nodes.context_of [d] = page_content d
  /\ Nodes.context_of (d :: d' :: ds) =
     page_content d +:+ (nl +:+ nl) +:+ Nodes.context_of (d' :: ds).
Proof. repeat split. Qed.

(** C6: blocking [generate_answer] of the simple mode joins the passage
    bodies in the order of [state.retrieved_docs] with a blank line
    between them, puts that context and the question into the fixed
    prompt, invokes the backend once with it, and returns a new State
    whose answer is the response text and whose question and passages
    are those of the input (which stays as it was). *)
Theorem C6_generate_answer_blocking :
  forall (r : Retriever) (l : LLM) (w : World) (state : ref) (st : RAGState)
         (resp : string),
    heap w !! state = Some st ->
    let context := String.concat (nl +:+ nl) (map page_content (retrieved_docs st)) in
    let prompt :=
      "Answer the question based on the context." +:+ nl +:+ nl
      +:+ "Context:" +:+ nl +:+ context +:+ nl +:+ nl
      +:+ "Question: " +:+ question st in
    llm_invoke l prompt = Ok resp ->
    let out := mkRAGState (question st) (retrieved_docs st) (PyStr resp) in
    let w' := mkWorld (heap w ++ [out]) (calls w ++ [LlmInvoke prompt]) (_agent w) in
    Nodes.generate_answer (Nodes.mkRAGNodes r l) state w = ([], Ok (length (heap w)), w')
    /\ heap w' !! length (heap w) = Some out
    /\ heap w' !! state = Some st
    /\ blocking_invocations (calls w') = S (blocking_invocations (calls w)).
Proof.
  intros r l w state st resp Hst context prompt Hinv out w'.
  repeat split.
  - unfold Nodes.generate_answer, bind at 1.
    rewrite (deref_ok w state st Hst).
    change (Nodes.prompt_of (Nodes.context_of (retrieved_docs st)) (question st))
      with prompt.
    unfold bind, log, outcome, new_RAGState. simpl. rewrite Hinv. reflexivity.
  - apply lookup_alloc_new.
  - apply lookup_alloc_old, Hst.
  - unfold w'. simpl calls. rewrite blocking_invocations_app.
    unfold blocking_invocations at 2. simpl. lia.
Qed.

Lemma C6_generate_answer_blocking_witness :
  Nodes.generate_answer (Nodes.mkRAGNodes retriever_two llm_hello) 0 sample_world
  = ([], Ok 1,
     mkWorld [sample_state; mkRAGState "Q" [doc_a; doc_b] (PyStr "Hello")]
       [LlmInvoke ("Answer the question based on the context." +:+ nl +:+ nl
                   +:+ "Context:" +:+ nl +:+ "alpha" +:+ nl +:+ nl +:+ "beta"
                   +:+ nl +:+ nl +:+ "Question: Q")]
       None).
Proof.
  exact (proj1 (C6_generate_answer_blocking retriever_two llm_hello sample_world 0
                  sample_state "Hello" eq_refl eq_refl)).
Defined.

(** C3: when the backend's stream raises after some chunks, simple
    streaming yields, after the cumulative strings of the chunks
    received, exactly one more fragment, ["Error during streaming: "]
    followed by the exception text, and still returns a final State,
    whose answer is that same error text. *)
Theorem C3_simple_streaming_error :
  forall (r : Retriever) (l : LLM) (w : World) (state : ref) (st : RAGState)
         (chunks : list Chunk) (e : string),
    heap w !! state = Some st ->
    llm_stream l (Nodes.prompt_of (Nodes.context_of (retrieved_docs st)) (question st))
      = (chunks, Some e) ->
    let error_msg := "Error during streaming: " +:+ e in
    exists w',
      Nodes.generate_answer_streaming (Nodes.mkRAGNodes r l) state w
      = (cumulative (fragments chunks) ++ [error_msg], Ok (length (heap w)), w')
      /\ heap w' !! length (heap w)
         = Some (mkRAGState (question st) (retrieved_docs st) (PyStr error_msg)).
Proof.
  intros r l w state st chunks e Hst Hs error_msg.
  eexists. split.
  - exact (simple_streaming_run r l w state st chunks (Some e) Hst Hs).
  - apply lookup_alloc_new.
Qed.

Lemma C3_simple_streaming_error_witness :
  exists w',
    Nodes.generate_answer_streaming (Nodes.mkRAGNodes retriever_two llm_failing) 0
      sample_world
    = (["He"; "Error during streaming: connection reset"], Ok 1, w')
    /\ heap w' !! 1
       = Some (mkRAGState "Q" [doc_a; doc_b]
                 (PyStr "Error during streaming: connection reset")).
Proof.
  exact (C3_simple_streaming_error retriever_two llm_failing sample_world 0
           sample_state [content_chunk "He"] "connection reset" eq_refl eq_refl).
Defined.

Lemma carries_nonempty (chunk : Chunk) (f : string) : carries chunk f -> f <> "".
Proof. now intros [f' t Hf | c f' Hc Hf | f' Hf]. Qed.

(** Each cumulative string is the one before it followed by the next
    fragment. *)
Lemma cumulative_step (fs : list string) (i : nat) (a b : string) :
  cumulative fs !! i = Some a ->
  cumulative fs !! S i = Some b ->
  exists f, fs !! S i = Some f /\ b = a +:+ f.
Proof.
  intros Ha Hb.
  apply cumulative_lookup in Ha as [-> _].
  apply cumulative_lookup in Hb as [-> Hlt].
  destruct (lookup_lt_is_Some_2 fs (S i) Hlt) as [f Hf].
  exists f. split; [exact Hf|].
  rewrite (take_S_r fs (S i) f Hf), concat_empty_app.
  now rewrite concat_empty_cons, str_app_nil_r.
Qed.

(** C4: in simple streaming mode, when the backend delivers the
    non-empty fragments [fs] (each in a recognised shape), the generator
    yields after each fragment the concatenation of all fragments so
    far, so that every yielded string is the previous one extended by
    the next fragment, and the final answer is the whole concatenation;
    for ["He"; "llo"] it yields ["He"; "Hello"]. *)
Theorem C4_simple_streaming_cumulative :
  forall (r : Retriever) (l : LLM) (w : World) (state : ref) (st : RAGState)
         (chunks : list Chunk) (fs : list string),
    heap w !! state = Some st ->
    llm_stream l (Nodes.prompt_of (Nodes.context_of (retrieved_docs st)) (question st))
      = (chunks, None) ->
    Forall2 carries chunks fs ->
    exists ys w',
      Nodes.generate_answer_streaming (Nodes.mkRAGNodes r l) state w
      = (ys, Ok (length (heap w)), w')
      /\ ys = cumulative fs
      /\ (forall i a b, ys !! i = Some a -> ys !! S i = Some b ->
            exists f, fs !! S i = Some f /\ f <> "" /\ b = a +:+ f)
      /\ heap w' !! length (heap w)
         = Some (mkRAGState (question st) (retrieved_docs st)
                   (PyStr (String.concat "" fs))).
Proof.
  intros r l w state st chunks fs Hst Hs Hfs.
  pose proof (simple_streaming_run r l w state st chunks None Hst Hs) as Hrun.
  simpl in Hrun. rewrite (carries_all_fragments chunks fs Hfs), app_nil_r in Hrun.
  eexists _, _. split; [exact Hrun|]. split; [reflexivity|]. split.
  - intros i a b Ha Hb.
    destruct (cumulative_step fs i a b Ha Hb) as [f [Hf ->]].
    exists f. repeat split; [exact Hf|].
    destruct (Forall2_lookup_r _ _ _ (S i) f Hfs Hf) as [c [_ Hc]].
    exact (carries_nonempty c f Hc).
  - apply lookup_alloc_new.
Qed.

Lemma C4_simple_streaming_cumulative_witness :
  exists ys w',
    Nodes.generate_answer_streaming (Nodes.mkRAGNodes retriever_two llm_hello) 0
      sample_world
    = (ys, Ok 1, w')
    /\ ys = ["He"; "Hello"]
    /\ (forall i a b, ys !! i = Some a -> ys !! S i = Some b ->
          exists f, ["He"; "llo"] !! S i = Some f /\ f <> "" /\ b = a +:+ f)
    /\ heap w' !! 1 = Some (mkRAGState "Q" [doc_a; doc_b] (PyStr "Hello")).
Proof.
  apply (C4_simple_streaming_cumulative retriever_two llm_hello sample_world 0
           sample_state [content_chunk "He"; content_chunk "llo"] ["He"; "llo"]
           eq_refl eq_refl).
  repeat constructor; discriminate.
Defined.

Lemma fragments_app (xs ys : list Chunk) :
  fragments (xs ++ ys) = fragments xs ++ fragments ys.
Proof.
  induction xs as [|x xs IH]; simpl; [reflexivity|].
  destruct (chunk_fragment x); simpl; now rewrite IH.
Qed.

Lemma blank_chunk_fragment (c t : option pyval) :
  blank_attr c -> blank_attr t -> chunk_fragment (ChunkObj c t) = None.
Proof.
  intros Hc Ht. unfold chunk_fragment, Nodes.content_attr, Nodes.text_attr.
  now rewrite (truthy_attr_blank c Hc), (truthy_attr_blank t Ht).
Qed.

(** C10, as the code has it: a chunk object whose [content] and [text]
    attributes are both missing or empty is skipped, it yields nothing
    and leaves the accumulated answer as it is, so a stream with such a
    chunk anywhere in it runs exactly as the stream without it; a chunk
    whose [content] is missing or empty and whose [text] is a non-empty
    string is not skipped, its text is appended and the running string
    is yielded. *)
Theorem C10_blank_chunks_skipped :
  (forall (c t : option pyval) (acc : string) (w : World),
     blank_attr c -> blank_attr t ->
     Nodes.stream_body (ChunkObj c t) acc w = ([], Ok acc, w))
  /\ (forall (r : Retriever) (l l' : LLM) (w : World) (state : ref) (st : RAGState)
             (before after : list Chunk) (c t : option pyval) (ending : option string),
        heap w !! state = Some st ->
        blank_attr c -> blank_attr t ->
        let prompt :=
          Nodes.prompt_of (Nodes.context_of (retrieved_docs st)) (question st) in
        llm_stream l prompt = (before ++ ChunkObj c t :: after, ending) ->
        llm_stream l' prompt = (before ++ after, ending) ->
        Nodes.generate_answer_streaming (Nodes.mkRAGNodes r l) state w
        = Nodes.generate_answer_streaming (Nodes.mkRAGNodes r l') state w)
  /\ (forall (c : option pyval) (f acc : string) (w : World),
        blank_attr c -> f <> "" ->
        Nodes.stream_body (ChunkObj c (Some (PyStr f))) acc w
        = ([acc +:+ f], Ok (acc +:+ f), w)).
Proof.
  split; [|split].
  - intros c t acc w Hc Ht.
    now rewrite stream_body_fragment, (blank_chunk_fragment c t Hc Ht).
  - intros r l l' w state st before after c t ending Hst Hc Ht prompt Hl Hl'.
    rewrite (simple_streaming_run r l w state st _ ending Hst Hl).
    rewrite (simple_streaming_run r l' w state st _ ending Hst Hl').
    rewrite !fragments_app. simpl fragments.
    now rewrite (blank_chunk_fragment c t Hc Ht).
  - intros c f acc w Hc Hf.
    rewrite stream_body_fragment.
    now rewrite (carries_fragment _ f (carries_text c f Hc Hf)).
Qed.

Lemma C10_blank_chunks_skipped_witness :
  Nodes.stream_body (ChunkObj (Some (PyStr "")) None) "He" sample_world
    = ([], Ok "He", sample_world)
  /\ Nodes.generate_answer_streaming (Nodes.mkRAGNodes retriever_two llm_hello_gap) 0
       sample_world
     = Nodes.generate_answer_streaming (Nodes.mkRAGNodes retriever_two llm_hello) 0
         sample_world
  /\ Nodes.stream_body (ChunkObj (Some PyNone) (Some (PyStr "llo"))) "He" sample_world
     = (["Hello"], Ok "Hello", sample_world).
Proof.
  destruct C10_blank_chunks_skipped as [Hskip [Hstream Htext]].
  split; [|split].
  - apply Hskip; [right; right; reflexivity | left; reflexivity].
  - apply (Hstream retriever_two llm_hello_gap llm_hello sample_world 0 sample_state
             [content_chunk "He"] [content_chunk "llo"] (Some (PyStr "")) None None);
      [reflexivity | right; right; reflexivity | left; reflexivity
      | reflexivity | reflexivity].
  - apply (Htext (Some PyNone) "llo" "He" sample_world);
      [right; left; reflexivity | discriminate].
Defined.

(** C10, as stated, fails: a chunk whose [content] is the empty string
    but which has a [text] attribute is not skipped, its text is yielded
    and ends up in the final answer; and an empty plain string is not
    skipped either, the running string is yielded once more for it. *)
Lemma C10_empty_content_not_skipped :
  (Nodes.content_attr (ChunkObj (Some (PyStr "")) (Some (PyStr "x"))) = Some (PyStr "")
   /\ fst (fst (Nodes.generate_answer_streaming
                  (Nodes.mkRAGNodes retriever_two llm_text_only) 0 sample_world))
      = ["x"]
   /\ heap (snd (Nodes.generate_answer_streaming
                   (Nodes.mkRAGNodes retriever_two llm_text_only) 0 sample_world)) !! 1
      = Some (mkRAGState "Q" [doc_a; doc_b] (PyStr "x")))
  /\ fst (fst (Nodes.generate_answer_streaming
                 (Nodes.mkRAGNodes retriever_two llm_empty_str) 0 sample_world))
     = ["He"; "He"].
Proof. repeat split. Qed.

(** ** Tool-augmented mode *)

Section ReactProperties.

Variable create_react_agent : LLM -> list ReactNode.Tool -> string -> Agent.
Variable wiki_run : string -> result string.

Lemma ensure_agent_run {Y} (self : ReactNode.RAGNodes) (w : World) :
  ReactNode.ensure_agent (Y:=Y) create_react_agent wiki_run self w
  = ([], Ok (agent_of create_react_agent wiki_run self w),
     with_agent create_react_agent wiki_run self w).
Proof.
  unfold ReactNode.ensure_agent, with_agent, agent_of, build_calls, bind.
  destruct w as [h cs [a|]]; simpl; [now rewrite app_nil_r | reflexivity].
Qed.

Lemma react_stream_body (chunk : gmap string (list Message)) (acc : pyval) (w : World) :
  ReactNode.stream_body chunk acc w =
  match event_content chunk with
  | Some c => ([PyStr c], Ok (PyStr c), w)
  | None => ([], Ok acc, w)
  end.
Proof.
  unfold ReactNode.stream_body, event_content.
  destruct (last (ReactNode.messages_of chunk)) as [m|]; [|reflexivity].
  destruct (content m) as [[|[|a s]]|]; try reflexivity.
  simpl. destruct (ReactNode.has_finish_reason m); reflexivity.
Qed.

Lemma react_loop (events : list (gmap string (list Message))) (acc : pyval) (w : World) :
  loop ReactNode.stream_body events acc w =
  (map PyStr (contents events),
   Ok (match last (contents events) with Some c => PyStr c | None => acc end), w).
Proof.
  revert acc. induction events as [|chunk events IH]; intros acc; simpl.
  - reflexivity.
  - unfold bind. rewrite react_stream_body.
    destruct (event_content chunk) as [c|]; rewrite IH; [|reflexivity].
    rewrite last_cons. now destruct (last (contents events)).
Qed.

Lemma contents_truthy (events : list (gmap string (list Message))) (c : string) :
  last (contents events) = Some c -> truthy (PyStr c) = true.
Proof.
  intros H. apply last_Some_elem_of in H. revert H.
  induction events as [|chunk events IH]; simpl.
  - intros H. now apply elem_of_nil in H.
  - destruct (event_content chunk) as [c'|] eqn:E; [|exact IH].
    intros H. apply elem_of_cons in H as [-> | H]; [|now apply IH].
    unfold event_content in E.
    destruct (last (ReactNode.messages_of chunk)) as [m|]; [|discriminate].
    destruct (content m) as [[|[|a s]]|]; try discriminate.
    now injection E as <-.
Qed.

Ltac react_start Hst :=
  unfold ReactNode.generate_answer_streaming, bind at 1;
  rewrite ensure_agent_run;
  unfold try_except, bind at 1;
  rewrite (deref_ok (with_agent create_react_agent wiki_run _ _) _ _ Hst);
  unfold for_in, ReactNode.stream_agent, bind at 1, bind at 1, log, iter;
  cbn [fst snd heap calls _agent];
  repeat match goal with H : agent_stream _ _ = _ |- _ => rewrite H end;
  cbn [fst snd]; rewrite react_loop, ?app_nil_l.

Lemma react_streaming_raises (self : ReactNode.RAGNodes) (w : World) (state : ref)
    (st : RAGState) (events : list (gmap string (list Message))) (e : string) :
  heap w !! state = Some st ->
  agent_stream (agent_of create_react_agent wiki_run self w) (question st)
    = (events, Some e) ->
  let error_msg := "Error generating answer: " +:+ e in
  ReactNode.generate_answer_streaming create_react_agent wiki_run self state w
  = (map PyStr (contents events) ++ [PyStr error_msg], Ok (length (heap w)),
     react_final create_react_agent wiki_run self w st (PyStr error_msg)
       [AgentStream (question st)]).
Proof.
  intros Hst Hs error_msg. react_start Hst.
  unfold bind, yield, new_RAGState, deref, react_final, with_agent.
  cbn [fst snd heap calls _agent]. rewrite Hst.
  cbn. reflexivity.
Qed.

Lemma react_streaming_content (self : ReactNode.RAGNodes) (w : World) (state : ref)
    (st : RAGState) (events : list (gmap string (list Message))) (c : string) :
  heap w !! state = Some st ->
  agent_stream (agent_of create_react_agent wiki_run self w) (question st)
    = (events, None) ->
  last (contents events) = Some c ->
  ReactNode.generate_answer_streaming create_react_agent wiki_run self state w
  = (map PyStr (contents events), Ok (length (heap w)),
     react_final create_react_agent wiki_run self w st (PyStr c)
       [AgentStream (question st)]).
Proof.
  intros Hst Hs Hc. react_start Hst. rewrite Hc.
  unfold bind at 1. unfold ReactNode.fallback.
  rewrite (contents_truthy events c Hc).
  unfold bind, ret, new_RAGState, react_final, with_agent.
  cbn. now rewrite !app_nil_r.
Qed.

Lemma react_streaming_fallback (self : ReactNode.RAGNodes) (w : World) (state : ref)
    (st : RAGState) (events : list (gmap string (list Message))) :
  heap w !! state = Some st ->
  let agent := agent_of create_react_agent wiki_run self w in
  agent_stream agent (question st) = (events, None) ->
  contents events = [] ->
  let log_tail := [AgentStream (question st); AgentInvoke (question st)] in
  ReactNode.generate_answer_streaming create_react_agent wiki_run self state w
  = match agent_invoke agent (question st) with
    | Ok res =>
        match last (ReactNode.messages_of res) with
        | Some m =>
            let a := ReactNode.getattr_content m (PyStr "Could not generate answer.") in
            ([a], Ok (length (heap w)),
             react_final create_react_agent wiki_run self w st a log_tail)
        | None =>
            ([], Ok (length (heap w)),
             react_final create_react_agent wiki_run self w st (PyStr "") log_tail)
        end
    | Raise e =>
        let error_msg := "Error generating answer: " +:+ e in
        ([PyStr error_msg], Ok (length (heap w)),
         react_final create_react_agent wiki_run self w st (PyStr error_msg) log_tail)
    end.
Proof.
  intros Hst agent Hs Hc log_tail. subst agent log_tail. react_start Hst. rewrite Hc.
  unfold ReactNode.fallback, ReactNode.invoke_agent.
  cbn [last truthy].
  unfold bind, log, outcome, yield, ret, new_RAGState, react_final, with_agent.
  cbv beta iota zeta. cbn [heap calls _agent].
  destruct (agent_invoke _ (question st)) as [res|e]; cbv beta iota zeta.
  - destruct (last (ReactNode.messages_of res)) as [m|];
      cbn; rewrite <- ?app_assoc; reflexivity.
  - unfold deref. cbn [fst snd heap calls _agent]. rewrite Hst. cbn.
    rewrite <- ?app_assoc. reflexivity.
Qed.
Lemma react_generate_answer_run (self : ReactNode.RAGNodes) (w : World) (state : ref)
    (st : RAGState) (res : gmap string (list Message)) :
  heap w !! state = Some st ->
  agent_invoke (agent_of create_react_agent wiki_run self w) (question st) = Ok res ->
  let answer :=
    match last (ReactNode.messages_of res) with
    | Some m => ReactNode.getattr_content m PyNone
    | None => PyNone
    end in
  ReactNode.generate_answer create_react_agent wiki_run self state w
  = ([], Ok (length (heap w)),
     react_final create_react_agent wiki_run self w st
       (py_or answer (PyStr "Could not generate answer."))
       [AgentInvoke (question st)]).
Proof.
  intros Hst Hinv answer. subst answer.
  unfold ReactNode.generate_answer, bind at 1.
  rewrite ensure_agent_run. unfold bind at 1.
  rewrite (deref_ok (with_agent create_react_agent wiki_run _ _) _ _ Hst).
  unfold ReactNode.invoke_agent, bind, log, outcome, new_RAGState, react_final.
  cbn [heap calls _agent]. rewrite Hinv. reflexivity.
Qed.

Lemma blocking_build_calls (w : World) : blocking_invocations (build_calls w) = 0.
Proof. unfold build_calls. now destruct (_agent w). Qed.

Lemma react_final_lookup (self : ReactNode.RAGNodes) (w : World) (st : RAGState)
    (a : pyval) (tl : list Call) :
  heap (react_final create_react_agent wiki_run self w st a tl) !! length (heap w)
  = Some (mkRAGState (question st) (retrieved_docs st) a).
Proof. apply lookup_alloc_new. Qed.

Lemma react_final_blocking (self : ReactNode.RAGNodes) (w : World) (st : RAGState)
    (a : pyval) (tl : list Call) :
  blocking_invocations (calls (react_final create_react_agent wiki_run self w st a tl))
  = blocking_invocations (calls w) + blocking_invocations tl.
Proof.
  unfold react_final, with_agent. cbn [calls].
  rewrite !blocking_invocations_app, blocking_build_calls. lia.
Qed.

(** C9: blocking [generate_answer] of the tool-augmented mode answers
    ["Could not generate answer."] when the result of the reasoning loop
    holds no message (no ["messages"] entry, or an empty list) or a last
    message whose content is missing, [None] or empty, and the content
    of the last message of the list otherwise. *)
Theorem C9_react_generate_answer_default :
  forall (self : ReactNode.RAGNodes) (w : World) (state : ref) (st : RAGState)
         (res : gmap string (list Message)),
    heap w !! state = Some st ->
    agent_invoke (agent_of create_react_agent wiki_run self w) (question st) = Ok res ->
    exists (a : string) (w' : World),
      ReactNode.generate_answer create_react_agent wiki_run self state w
      = ([], Ok (length (heap w)), w')
      /\ heap w' !! length (heap w)
         = Some (mkRAGState (question st) (retrieved_docs st) (PyStr a))
      /\ (res !! "messages" = None -> a = "Could not generate answer.")
      /\ (res !! "messages" = Some [] -> a = "Could not generate answer.")
      /\ (forall ms m, res !! "messages" = Some ms -> last ms = Some m ->
            blank_attr (content m) -> a = "Could not generate answer.")
      /\ (forall ms m s, res !! "messages" = Some ms -> last ms = Some m ->
            content m = Some (PyStr s) -> s <> "" -> a = s).
Proof.
  intros self w state st res Hst Hinv.
  pose proof (react_generate_answer_run self w state st res Hst Hinv) as Hrun.
  cbv zeta in Hrun. unfold ReactNode.getattr_content, ReactNode.messages_of in Hrun.
  destruct (res !! "messages") as [ms|] eqn:Hms.
  - destruct (last ms) as [m|] eqn:Hlast.
    + destruct (content m) as [[|[|c s]]|] eqn:Hc; cbn [py_or truthy] in Hrun.
      all: eexists _, _; split; [exact Hrun|]; split; [apply react_final_lookup|].
      all: split; [discriminate|].
      all: split; [intros Hnil; injection Hnil as ->; discriminate|].
      all: split.
      all: try (intros ms' m' Hms' Hm' Hb; reflexivity).
      all: try (intros ms' m' s' Hms' Hm' Hs' Hne; congruence).
      intros ms' m' Hms' Hm' [Hb | [Hb | Hb]]; congruence.
    + eexists _, _. split; [exact Hrun|]. split; [apply react_final_lookup|].
      split; [discriminate|]. split; [reflexivity|].
      split; intros; congruence.
  - eexists _, _. split; [exact Hrun|]. split; [apply react_final_lookup|].
    split; [reflexivity|]. split; [discriminate|].
    split; intros; congruence.
Qed.

(** C5: in tool-augmented streaming mode an event whose last message
    has a non-empty content yields that content once and makes it the
    accumulated answer, replacing (not extending) what was accumulated,
    whether or not the message carries a completion marker; when the
    stream ends, the final State's answer is the content of the last
    content-bearing event. *)
Theorem C5_react_streaming_overwrite :
  (forall (chunk : gmap string (list Message)) (m : Message) (c : string)
          (acc : pyval) (w : World),
     last (ReactNode.messages_of chunk) = Some m ->
     content m = Some (PyStr c) -> c <> "" ->
     (ReactNode.has_finish_reason m = true ->
        ReactNode.stream_body chunk acc w = ([PyStr c], Ok (PyStr c), w))
     /\ (ReactNode.has_finish_reason m = false ->
           ReactNode.stream_body chunk acc w = ([PyStr c], Ok (PyStr c), w)))
  /\ (forall (self : ReactNode.RAGNodes) (w : World) (state : ref) (st : RAGState)
             (events : list (gmap string (list Message))) (c : string),
        heap w !! state = Some st ->
        agent_stream (agent_of create_react_agent wiki_run self w) (question st)
          = (events, None) ->
        last (contents events) = Some c ->
        exists w',
          ReactNode.generate_answer_streaming create_react_agent wiki_run self state w
          = (map PyStr (contents events), Ok (length (heap w)), w')
          /\ heap w' !! length (heap w)
             = Some (mkRAGState (question st) (retrieved_docs st) (PyStr c))).
Proof.
  split.
  - intros chunk m c acc w Hlast Hc Hne.
    assert (E : event_content chunk = Some c).
    { unfold event_content. rewrite Hlast, Hc. now destruct c. }
    split; intros _; now rewrite react_stream_body, E.
  - intros self w state st events c Hst Hs Hc.
    eexists. split.
    + exact (react_streaming_content self w state st events c Hst Hs Hc).
    + apply react_final_lookup.
Qed.


End ReactProperties.

Lemma C9_react_generate_answer_default_witness :
  (exists w',
     ReactNode.generate_answer (factory_of agent_late) wiki_stub
       (ReactNode.mkRAGNodes retriever_two llm_hello) 0 sample_world
     = ([], Ok 1, w')
     /\ heap w' !! 1 = Some (mkRAGState "Q" [doc_a; doc_b] (PyStr "late")))
  /\ (exists w',
        ReactNode.generate_answer (factory_of agent_none) wiki_stub
          (ReactNode.mkRAGNodes retriever_two llm_hello) 0 sample_world
        = ([], Ok 1, w')
        /\ heap w' !! 1
           = Some (mkRAGState "Q" [doc_a; doc_b] (PyStr "Could not generate answer.")))
  /\ (exists w',
        ReactNode.generate_answer (factory_of agent_mute) wiki_stub
          (ReactNode.mkRAGNodes retriever_two llm_hello) 0 sample_world
        = ([], Ok 1, w')
        /\ heap w' !! 1
           = Some (mkRAGState "Q" [doc_a; doc_b] (PyStr "Could not generate answer."))).
Proof.
  split; [|split].
  - destruct (C9_react_generate_answer_default (factory_of agent_late) wiki_stub
                (ReactNode.mkRAGNodes retriever_two llm_hello) sample_world 0
                sample_state (messages_dict [msg "first"; msg "late"]) eq_refl eq_refl)
      as [a [w' [Hrun [Hheap [_ [_ [_ Hcontent]]]]]]].
    assert (Ha : a = "late").
    { apply (Hcontent [msg "first"; msg "late"] (msg "late") "late");
        [reflexivity | reflexivity | reflexivity | discriminate]. }
    rewrite Ha in Hheap. exists w'. split; [exact Hrun | exact Hheap].
  - destruct (C9_react_generate_answer_default (factory_of agent_none) wiki_stub
                (ReactNode.mkRAGNodes retriever_two llm_hello) sample_world 0
                sample_state (messages_dict [mkMessage (Some PyNone) None])
                eq_refl eq_refl)
      as [a [w' [Hrun [Hheap [_ [_ [Hblank _]]]]]]].
    assert (Ha : a = "Could not generate answer.").
    { apply (Hblank [mkMessage (Some PyNone) None] (mkMessage (Some PyNone) None));
        [reflexivity | reflexivity | right; left; reflexivity]. }
    rewrite Ha in Hheap. exists w'. split; [exact Hrun | exact Hheap].
  - destruct (C9_react_generate_answer_default (factory_of agent_mute) wiki_stub
                (ReactNode.mkRAGNodes retriever_two llm_hello) sample_world 0
                sample_state ∅ eq_refl eq_refl)
      as [a [w' [Hrun [Hheap [Hnone _]]]]].
    rewrite (Hnone eq_refl) in Hheap. exists w'. split; [exact Hrun | exact Hheap].
Defined.

Lemma C5_react_streaming_overwrite_witness :
  ReactNode.stream_body (messages_dict [msg "A"; msg_final "B"]) (PyStr "A") sample_world
    = ([PyStr "B"], Ok (PyStr "B"), sample_world)
  /\ exists w',
       ReactNode.generate_answer_streaming (factory_of agent_a_b) wiki_stub
         (ReactNode.mkRAGNodes retriever_two llm_hello) 0 sample_world
       = ([PyStr "A"; PyStr "B"], Ok 1, w')
       /\ heap w' !! 1 = Some (mkRAGState "Q" [doc_a; doc_b] (PyStr "B")).
Proof.
  destruct (C5_react_streaming_overwrite (factory_of agent_a_b) wiki_stub)
    as [Hevent Hrun].
  split.
  - refine (proj1 (Hevent (messages_dict [msg "A"; msg_final "B"]) (msg_final "B") "B"
                     (PyStr "A") sample_world eq_refl eq_refl _) eq_refl).
    discriminate.
  - exact (Hrun (ReactNode.mkRAGNodes retriever_two llm_hello) sample_world 0
             sample_state
             [messages_dict [msg "A"]; messages_dict [msg_final "B"]] "B"
             eq_refl eq_refl eq_refl).
Defined.



(** ** The retrieval-search tool *)

Lemma merged_fold (g : nat * Document -> string) (xs : list (nat * Document))
    (init : list string) :
  fold_left (fun merged id => merged ++ [g id]) xs init = init ++ map g xs.
Proof.
  revert init. induction xs as [|x xs IH]; intros init; simpl.
  - now rewrite app_nil_r.
  - rewrite IH, <- app_assoc. reflexivity.
Qed.

Lemma enumerate_format (k : nat) (l : list Document) :
  map (fun id => ReactNode.format_doc (fst id) (snd id)) (combine (seq k (length l)) l)
  = imap (fun i d => ReactNode.format_doc (k + i) d) l.
Proof.
  revert k. induction l as [|d l IH]; intros k; [reflexivity|].
  simpl. rewrite Nat.add_0_r. f_equal. rewrite IH.
  apply imap_ext. intros i x _. simpl. f_equal. lia.
Qed.

(** The title shown for a passage: the metadata's title when it is
    non-empty, else its source when that is non-empty, else [doc_i]. *)
Lemma title_of_cases (i : nat) (d : Document) :
  let title := dict_get (ReactNode.meta_of d) "title" in
  let source := dict_get (ReactNode.meta_of d) "source" in
  (truthy title = true -> ReactNode.title_of i d = title)
  /\ (truthy title = false -> truthy source = true -> ReactNode.title_of i d = source)
  /\ (truthy title = false -> truthy source = false ->
      ReactNode.title_of i d = PyStr ("doc_" +:+ str_of_nat i)).
Proof.
  intros title source. unfold ReactNode.title_of, py_or. fold title source.
  repeat split.
  - intros Ht. now rewrite !Ht.
  - intros Ht Hs. now rewrite Ht, !Hs.
  - intros Ht Hs. now rewrite Ht, !Hs.
Qed.

(** C8: the retrieval-search tool queries the retriever once; when no
    passage comes back it returns the literal ["No documents found."];
    otherwise it returns the first 8 passages at most, each as
    ["[index] title"], a line feed and the passage body, with the index
    counting from 1, joined by blank lines. *)
Theorem C8_retriever_tool_format :
  forall (r : Retriever) (l : LLM) (query : string) (w : World) (docs : list Document),
    retriever_invoke r query = Ok docs ->
    let w' := mkWorld (heap w) (calls w ++ [RetrieverInvoke query]) (_agent w) in
    let entry := fun (i : nat) (d : Document) =>
      "[" +:+ str_of_nat (S i) +:+ "] " +:+ py_str (ReactNode.title_of (S i) d)
      +:+ nl +:+ page_content d in
    (docs = [] ->
       ReactNode.retriever_tool_fn (ReactNode.mkRAGNodes r l) query w
       = ([], Ok "No documents found.", w'))
    /\ (docs <> [] ->
          ReactNode.retriever_tool_fn (ReactNode.mkRAGNodes r l) query w
          = ([], Ok (String.concat (nl +:+ nl) (imap entry (take 8 docs))), w'))
    /\ length (imap entry (take 8 docs)) = min 8 (length docs).
Proof.
  intros r l query w docs Hq w' entry.
  assert (Hrun : ReactNode.retriever_tool_fn (ReactNode.mkRAGNodes r l) query w
                 = ([], Ok match docs with
                           | [] => "No documents found."
                           | _ :: _ => String.concat (nl +:+ nl) (imap entry (take 8 docs))
                           end, w')).
  { unfold ReactNode.retriever_tool_fn, ReactNode.invoke_retriever, bind, log, outcome.
    cbn [heap calls _agent ReactNode.retriever]. rewrite Hq.
    destruct docs as [|d docs]; [reflexivity|].
    unfold ret, ReactNode.enumerate1, str_join.
    rewrite merged_fold, app_nil_l, (enumerate_format 1). reflexivity. }
  split; [|split].
  - intros ->. exact Hrun.
  - intros Hne. destruct docs; [congruence | exact Hrun].
  - now rewrite length_imap, length_take.
Qed.

Lemma C8_retriever_tool_format_witness :
  ReactNode.retriever_tool_fn (ReactNode.mkRAGNodes retriever_none llm_hello) "Q"
    empty_world
  = ([], Ok "No documents found.", mkWorld [] [RetrieverInvoke "Q"] None)
  /\ ReactNode.retriever_tool_fn (ReactNode.mkRAGNodes retriever_two llm_hello) "Q"
       empty_world
     = ([], Ok ("[1] Intro" +:+ nl +:+ "alpha" +:+ nl +:+ nl
                +:+ "[2] doc_2" +:+ nl +:+ "beta"),
        mkWorld [] [RetrieverInvoke "Q"] None).
Proof.
  split.
  - exact (proj1 (C8_retriever_tool_format retriever_none llm_hello "Q" empty_world []
                    eq_refl) eq_refl).
  - refine (proj1 (proj2 (C8_retriever_tool_format retriever_two llm_hello "Q"
                            empty_world [doc_a; doc_b] eq_refl)) _).
    discriminate.
Defined.

(** ** The orchestrator *)

Lemma relay_loop (s : ref) (xs : list pyval) (final_state : GraphBuilder.pyobj)
    (w : World) :
  GraphBuilder.obj_truthy final_state = false ->
  exists ys final_state',
    loop (GraphBuilder.relay s) xs final_state w = (ys, Ok final_state', w)
    /\ Forall (fun ev => GraphBuilder.step ev = "generating") ys
    /\ GraphBuilder.obj_truthy final_state' = false.
Proof.
  revert final_state. induction xs as [|x xs IH]; intros final_state Hf; cbn [loop].
  - exists [], final_state. repeat split; [constructor | exact Hf].
  - unfold bind at 1. destruct x as [|c].
    + destruct (IH (GraphBuilder.ObjVal PyNone) eq_refl) as [ys [fs' [E [Hys Hfs]]]].
      change (GraphBuilder.relay s PyNone final_state w)
        with (@nil GraphBuilder.Event, Ok (GraphBuilder.ObjVal PyNone), w).
      cbv beta iota. rewrite E. exists ys, fs'. repeat split; assumption.
    + destruct (IH final_state Hf) as [ys [fs' [E [Hys Hfs]]]].
      change (GraphBuilder.relay s (PyStr c) final_state w)
        with ([GraphBuilder.mkEvent "generating" (PyStr c) (GraphBuilder.ObjState s)],
              Ok final_state, w).
      cbv beta iota. rewrite E.
      eexists _, fs'. split; [reflexivity|]. split; [|exact Hfs].
      constructor; [reflexivity | exact Hys].
Qed.

(** Whatever the collaborators do, [run_streaming] emits no [complete]
    event: the loop over the generation stage receives the yielded
    strings only, never the State the generator returns. *)
Lemma run_streaming_never_complete
    (create_react_agent : LLM -> list ReactNode.Tool -> string -> Agent)
    (wiki_run : string -> result string)
    (self : GraphBuilder.GraphBuilder) (q : string) (w : World) :
  Forall (fun ev => GraphBuilder.step ev <> "complete")
         (fst (fst (GraphBuilder.run_streaming create_react_agent wiki_run self q w))).
Proof.
  unfold GraphBuilder.run_streaming, bind at 1. unfold yield at 1.
  unfold bind at 1.
  unfold ReactNode.invoke_retriever, bind at 1, bind at 1, log, outcome.
  cbn [heap calls _agent].
  destruct (retriever_invoke _ q) as [docs|e]; cbn [app fst snd].
  2: { repeat constructor. discriminate. }
  unfold bind at 1. unfold new_RAGState at 1. cbn [heap calls _agent app].
  unfold bind at 1. unfold yield at 1. unfold bind at 1. unfold yield at 1.
  unfold bind at 1. unfold for_in.
  match goal with
  | |- context [ReactNode.generate_answer_streaming ?a ?b ?c ?d ?e] =>
      destruct (ReactNode.generate_answer_streaming a b c d e) as [[xs r] w2]
  end.
  destruct (relay_loop (length (heap w)) xs (GraphBuilder.ObjVal PyNone) w2 eq_refl)
    as [ys [fs' [-> [Hys Hfs]]]].
  assert (Hgen : Forall (fun ev => GraphBuilder.step ev <> "complete") ys).
  { eapply Forall_impl; [exact Hys|]. intros ev ->. discriminate. }
  destruct r as [a|e]; rewrite ?Hfs; cbn [fst snd app]; unfold ret.
  - rewrite app_nil_r. repeat (constructor; [discriminate|]). exact Hgen.
  - repeat (constructor; [discriminate|]). exact Hgen.
Qed.

(** C1 evaluated: with two passages found and a reasoning loop whose
    events carry ["A"] and then ["AB"] (or ["A"] and then ["B"]), the
    generation stage builds the final State, but [run_streaming] ends
    after the last [generating] event; there is no [complete] event. *)
Theorem C1_run_streaming_missing_complete :
  let out := GraphBuilder.run_streaming (factory_of agent_snapshots) wiki_stub
               graph_two "Q" empty_world in
  let out' := GraphBuilder.run_streaming (factory_of agent_a_b) wiki_stub
                graph_two "Q" empty_world in
  fst out
  = (opening_events
     ++ [GraphBuilder.mkEvent "generating" (PyStr "A") (GraphBuilder.ObjState 0);
         GraphBuilder.mkEvent "generating" (PyStr "AB") (GraphBuilder.ObjState 0)],
     Ok tt)
  /\ heap (snd out) !! 1 = Some (mkRAGState "Q" [doc_a; doc_b] (PyStr "AB"))
  /\ fst out'
     = (opening_events
        ++ [GraphBuilder.mkEvent "generating" (PyStr "A") (GraphBuilder.ObjState 0);
            GraphBuilder.mkEvent "generating" (PyStr "B") (GraphBuilder.ObjState 0)],
        Ok tt)
  /\ heap (snd out') !! 1 = Some (mkRAGState "Q" [doc_a; doc_b] (PyStr "B")).
Proof. repeat split. Qed.

(** * Further properties of the code *)

(** ** Simple mode *)

Lemma cumulative_snoc (fs : list string) (f : string) :
  cumulative (fs ++ [f]) = cumulative fs ++ [String.concat "" (fs ++ [f])].
Proof.
  unfold cumulative. rewrite length_app, Nat.add_1_r, seq_S, map_app.
  cbn [map]. f_equal.
  - apply map_ext_in. intros k Hk. apply in_seq in Hk.
    rewrite take_app_le by lia. reflexivity.
  - rewrite take_ge; [reflexivity|]. rewrite length_app. cbn. lia.
Qed.

Lemma last_cumulative (fs : list string) :
  default "" (last (cumulative fs)) = String.concat "" fs.
Proof.
  destruct fs as [|f fs] using rev_ind; [reflexivity|].
  now rewrite cumulative_snoc, last_snoc.
Qed.

(** Simple streaming generation always comes to an end with a State:
    whatever the backend streams and however its stream ends, the
    generator returns (it never raises), having logged the one stream
    call and nothing else, and the store is the old one plus one new
    State that carries the input's question and passages. *)
Theorem simple_streaming_always_returns :
  forall (r : Retriever) (l : LLM) (w : World) (state : ref) (st : RAGState),
    heap w !! state = Some st ->
    exists (ys : list string) (a : string) (w' : World),
      Nodes.generate_answer_streaming (Nodes.mkRAGNodes r l) state w
      = (ys, Ok (length (heap w)), w')
      /\ heap w' = heap w ++ [mkRAGState (question st) (retrieved_docs st) (PyStr a)]
      /\ calls w'
         = calls w ++ [LlmStream (Nodes.prompt_of (Nodes.context_of (retrieved_docs st))
                                    (question st))]
      /\ _agent w' = _agent w.
Proof.
  intros r l w state st Hst.
  destruct (llm_stream l (Nodes.prompt_of (Nodes.context_of (retrieved_docs st))
                            (question st))) as [chunks ending] eqn:Hs.
  eexists _, _, _. split.
  - exact (simple_streaming_run r l w state st chunks ending Hst Hs).
  - repeat split.
Qed.

Lemma simple_streaming_always_returns_witness :
  exists (ys : list string) (a : string) (w' : World),
    Nodes.generate_answer_streaming (Nodes.mkRAGNodes retriever_two llm_down) 0
      sample_world
    = (ys, Ok 1, w')
    /\ heap w' = [sample_state; mkRAGState "Q" [doc_a; doc_b] (PyStr a)]
    /\ calls w'
       = [LlmStream (Nodes.prompt_of (Nodes.context_of [doc_a; doc_b]) "Q")]
    /\ _agent w' = None.
Proof.
  exact (simple_streaming_always_returns retriever_two llm_down sample_world 0
           sample_state eq_refl).
Defined.

(** In simple streaming mode the last string the caller receives is the
    answer of the final State; when nothing is yielded the answer is the
    empty string. *)
Theorem simple_streaming_last_yield_is_answer :
  forall (r : Retriever) (l : LLM) (w : World) (state : ref) (st : RAGState),
    heap w !! state = Some st ->
    exists (ys : list string) (w' : World),
      Nodes.generate_answer_streaming (Nodes.mkRAGNodes r l) state w
      = (ys, Ok (length (heap w)), w')
      /\ heap w' !! length (heap w)
         = Some (mkRAGState (question st) (retrieved_docs st)
                   (PyStr (default "" (last ys)))).
Proof.
  intros r l w state st Hst.
  destruct (llm_stream l (Nodes.prompt_of (Nodes.context_of (retrieved_docs st))
                            (question st))) as [chunks ending] eqn:Hs.
  eexists _, _. split.
  - exact (simple_streaming_run r l w state st chunks ending Hst Hs).
  - cbn [heap]. rewrite lookup_alloc_new. do 3 f_equal.
    destruct ending as [e|].
    + now rewrite last_snoc.
    + now rewrite app_nil_r, last_cumulative.
Qed.

Lemma simple_streaming_last_yield_is_answer_witness :
  exists (ys : list string) (w' : World),
    Nodes.generate_answer_streaming (Nodes.mkRAGNodes retriever_two llm_failing) 0
      sample_world
    = (ys, Ok 1, w')
    /\ heap w' !! 1
       = Some (mkRAGState "Q" [doc_a; doc_b] (PyStr (default "" (last ys)))).
Proof.
  exact (simple_streaming_last_yield_is_answer retriever_two llm_failing sample_world 0
           sample_state eq_refl).
Defined.

(** When the retriever raises, [retrieve_docs] (both node modules)
    raises the same exception after that one query and creates no State:
    the store is left exactly as it was. *)
Theorem retrieve_docs_failure_propagates :
  forall (r : Retriever) (l : LLM) (w : World) (state : ref) (st : RAGState)
         (e : string),
    heap w !! state = Some st ->
    retriever_invoke r (question st) = Raise e ->
    let w' := mkWorld (heap w) (calls w ++ [RetrieverInvoke (question st)]) (_agent w) in
    Nodes.retrieve_docs (Nodes.mkRAGNodes r l) state w = ([], Raise e, w')
    /\ ReactNode.retrieve_docs (ReactNode.mkRAGNodes r l) state w = ([], Raise e, w').
Proof.
  intros r l w state st e Hst Hq w'. split.
  - unfold Nodes.retrieve_docs, Nodes.invoke_retriever, bind, log, outcome.
    rewrite (deref_ok w state st Hst). simpl. rewrite Hq. reflexivity.
  - unfold ReactNode.retrieve_docs, ReactNode.invoke_retriever, bind, log, outcome.
    rewrite (deref_ok w state st Hst). simpl. rewrite Hq. reflexivity.
Qed.

Lemma retrieve_docs_failure_propagates_witness :
  Nodes.retrieve_docs (Nodes.mkRAGNodes retriever_down llm_hello) 0 sample_world
    = ([], Raise "index offline", mkWorld [sample_state] [RetrieverInvoke "Q"] None)
  /\ ReactNode.retrieve_docs (ReactNode.mkRAGNodes retriever_down llm_hello) 0
       sample_world
     = ([], Raise "index offline", mkWorld [sample_state] [RetrieverInvoke "Q"] None).
Proof.
  exact (retrieve_docs_failure_propagates retriever_down llm_hello sample_world 0
           sample_state "index offline" eq_refl eq_refl).
Defined.

(** When the backend's blocking invocation raises, simple-mode
    [generate_answer] raises the same exception and creates no State,
    unlike the streaming generator, which turns the failure into an
    answer. *)
Theorem simple_generate_answer_failure_propagates :
  forall (r : Retriever) (l : LLM) (w : World) (state : ref) (st : RAGState)
         (e : string),
    heap w !! state = Some st ->
    let prompt := Nodes.prompt_of (Nodes.context_of (retrieved_docs st)) (question st) in
    llm_invoke l prompt = Raise e ->
    Nodes.generate_answer (Nodes.mkRAGNodes r l) state w
    = ([], Raise e, mkWorld (heap w) (calls w ++ [LlmInvoke prompt]) (_agent w)).
Proof.
  intros r l w state st e Hst prompt Hinv.
  unfold Nodes.generate_answer, bind at 1.
  rewrite (deref_ok w state st Hst). fold prompt.
  unfold bind, log, outcome. simpl. rewrite Hinv. reflexivity.
Qed.

Lemma simple_generate_answer_failure_propagates_witness :
  Nodes.generate_answer (Nodes.mkRAGNodes retriever_two llm_down) 0 sample_world
  = ([], Raise "rate limited",
     mkWorld [sample_state]
       [LlmInvoke (Nodes.prompt_of (Nodes.context_of [doc_a; doc_b]) "Q")] None).
Proof.
  exact (simple_generate_answer_failure_propagates retriever_two llm_down sample_world 0
           sample_state "rate limited" eq_refl eq_refl).
Defined.

Lemma concat_sep_app (sep : string) (l1 l2 : list string) :
  l1 <> [] -> l2 <> [] ->
  String.concat sep (l1 ++ l2)
  = String.concat sep l1 +:+ sep +:+ String.concat sep l2.
Proof.
  intros H1 H2. induction l1 as [|x l1 IH]; [congruence|].
  destruct l1 as [|y l1].
  - destruct l2 as [|z l2]; [congruence | reflexivity].
  - change (String.concat sep ((x :: y :: l1) ++ l2))
      with (x +:+ sep +:+ String.concat sep ((y :: l1) ++ l2)).
    rewrite IH by discriminate.
    change (String.concat sep (x :: y :: l1))
      with (x +:+ sep +:+ String.concat sep (y :: l1)).
    now rewrite !str_app_assoc.
Qed.

(** The context block of two batches of passages put one after the
    other is the context block of the first, a blank line, and the
    context block of the second: passages keep their order and are never
    merged or dropped. *)
Theorem context_of_app :
  forall (ds1 ds2 : list Document),
    ds1 <> [] -> ds2 <> [] ->
    Nodes.context_of (ds1 ++ ds2)
    = Nodes.context_of ds1 +:+ (nl +:+ nl) +:+ Nodes.context_of ds2.
Proof.
  intros ds1 ds2 H1 H2. unfold Nodes.context_of, str_join.
  rewrite map_app. apply concat_sep_app.
  - destruct ds1; [congruence | discriminate].
  - destruct ds2; [congruence | discriminate].
Qed.

Lemma context_of_app_witness :
  Nodes.context_of ([doc_a] ++ [doc_b])
  = Nodes.context_of [doc_a] +:+ (nl +:+ nl) +:+ Nodes.context_of [doc_b].
Proof.
  apply (context_of_app [doc_a] [doc_b]); discriminate.
Defined.

Lemma simple_generate_answer_run (r : Retriever) (l : LLM) (w : World) (state : ref)
    (st : RAGState) (resp : string) :
  heap w !! state = Some st ->
  let prompt := Nodes.prompt_of (Nodes.context_of (retrieved_docs st)) (question st) in
  llm_invoke l prompt = Ok resp ->
  Nodes.generate_answer (Nodes.mkRAGNodes r l) state w
  = ([], Ok (length (heap w)),
     mkWorld (heap w ++ [mkRAGState (question st) (retrieved_docs st) (PyStr resp)])
             (calls w ++ [LlmInvoke prompt]) (_agent w)).
Proof.
  intros Hst prompt Hinv.
  unfold Nodes.generate_answer, bind at 1.
  rewrite (deref_ok w state st Hst). fold prompt.
  unfold bind, log, outcome, new_RAGState. simpl. rewrite Hinv. reflexivity.
Qed.

(** Streaming and blocking generation of the simple mode agree: they
    build the same prompt from a state, so when the backend's stream
    ends normally and its fragments concatenate to the text its blocking
    invocation returns, both produce the same State. *)
Theorem simple_streaming_agrees_with_blocking :
  forall (r : Retriever) (l : LLM) (w : World) (state : ref) (st : RAGState)
         (chunks : list Chunk),
    heap w !! state = Some st ->
    let prompt := Nodes.prompt_of (Nodes.context_of (retrieved_docs st)) (question st) in
    llm_stream l prompt = (chunks, None) ->
    llm_invoke l prompt = Ok (String.concat "" (fragments chunks)) ->
    snd (fst (Nodes.generate_answer_streaming (Nodes.mkRAGNodes r l) state w))
    = snd (fst (Nodes.generate_answer (Nodes.mkRAGNodes r l) state w))
    /\ heap (snd (Nodes.generate_answer_streaming (Nodes.mkRAGNodes r l) state w))
       = heap (snd (Nodes.generate_answer (Nodes.mkRAGNodes r l) state w)).
Proof.
  intros r l w state st chunks Hst prompt Hs Hinv.
  rewrite (simple_streaming_run r l w state st chunks None Hst Hs).
  rewrite (simple_generate_answer_run r l w state st _ Hst Hinv).
  split; reflexivity.
Qed.

Lemma simple_streaming_agrees_with_blocking_witness :
  snd (fst (Nodes.generate_answer_streaming (Nodes.mkRAGNodes retriever_two llm_hello) 0
              sample_world))
  = snd (fst (Nodes.generate_answer (Nodes.mkRAGNodes retriever_two llm_hello) 0
                sample_world))
  /\ heap (snd (Nodes.generate_answer_streaming (Nodes.mkRAGNodes retriever_two llm_hello)
                  0 sample_world))
     = heap (snd (Nodes.generate_answer (Nodes.mkRAGNodes retriever_two llm_hello) 0
                    sample_world)).
Proof.
  exact (simple_streaming_agrees_with_blocking retriever_two llm_hello sample_world 0
           sample_state [content_chunk "He"; content_chunk "llo"]
           eq_refl eq_refl eq_refl).
Defined.

(** ** Tool-augmented mode *)

Lemma agent_builds_app (cs cs' : list Call) :
  agent_builds (cs ++ cs') = agent_builds cs + agent_builds cs'.
Proof. unfold agent_builds. now rewrite List.filter_app, length_app. Qed.

Lemma agent_builds_build_calls (w : World) :
  agent_builds (build_calls w) = match _agent w with Some _ => 0 | None => 1 end.
Proof. unfold build_calls. now destruct (_agent w). Qed.

Lemma last_map_PyStr (l : list string) (c : string) :
  last l = Some c -> last (map PyStr l) = Some (PyStr c).
Proof.
  intros H. apply last_Some in H as [l' ->]. rewrite map_app. cbn [map].
  apply last_snoc.
Qed.

Section ReactFurther.

Variable create_react_agent : LLM -> list ReactNode.Tool -> string -> Agent.
Variable wiki_run : string -> result string.

(** Every run of the tool-augmented streaming generator, by the way the
    stream of the reasoning loop ends. *)
Lemma react_streaming_cases (self : ReactNode.RAGNodes) (w : World) (state : ref)
    (st : RAGState) (events : list (gmap string (list Message)))
    (ending : option string) :
  heap w !! state = Some st ->
  agent_stream (agent_of create_react_agent wiki_run self w) (question st)
    = (events, ending) ->
  exists (ys : list pyval) (a : pyval),
    ReactNode.generate_answer_streaming create_react_agent wiki_run self state w
    = (ys, Ok (length (heap w)),
       react_final create_react_agent wiki_run self w st a
         (AgentStream (question st) ::
          match ending, contents events with
          | None, [] => [AgentInvoke (question st)]
          | _, _ => []
          end))
    /\ a = default (PyStr "") (last ys).
Proof.
  intros Hst Hs. destruct ending as [e|].
  - eexists _, _. split.
    + exact (react_streaming_raises create_react_agent wiki_run self w state st
               events e Hst Hs).
    + now rewrite last_snoc.
  - destruct (contents events) as [|c0 cs] eqn:Hc.
    + pose proof (react_streaming_fallback create_react_agent wiki_run self w state st
                    events Hst Hs Hc) as Hrun.
      cbv zeta in Hrun.
      destruct (agent_invoke _ (question st)) as [res|e];
        [destruct (last (ReactNode.messages_of res)) as [m|]|];
        eexists _, _; (split; [exact Hrun | reflexivity]).
    + assert (Hlast : exists c, last (contents events) = Some c).
      { destruct (last (contents events)) as [c|] eqn:Hlast; [now exists c|].
        apply last_None in Hlast. congruence. }
      destruct Hlast as [c Hlast].
      eexists _, _. split.
      * exact (react_streaming_content create_react_agent wiki_run self w state st
                 events c Hst Hs Hlast).
      * rewrite (last_map_PyStr _ c Hlast). reflexivity.
Qed.

(** Tool-augmented streaming generation always comes to an end with a
    State: whatever the reasoning loop streams, however its stream ends
    and whatever its blocking invocation does, the generator returns (it
    never raises), the store is the old one plus one new State with the
    input's question and passages, and the agent is in place. *)
Theorem react_streaming_always_returns :
  forall (self : ReactNode.RAGNodes) (w : World) (state : ref) (st : RAGState),
    heap w !! state = Some st ->
    exists (ys : list pyval) (a : pyval) (w' : World),
      ReactNode.generate_answer_streaming create_react_agent wiki_run self state w
      = (ys, Ok (length (heap w)), w')
      /\ heap w' = heap w ++ [mkRAGState (question st) (retrieved_docs st) a]
      /\ _agent w' = Some (agent_of create_react_agent wiki_run self w).
Proof.
  intros self w state st Hst.
  destruct (agent_stream (agent_of create_react_agent wiki_run self w) (question st))
    as [events ending] eqn:Hs.
  destruct (react_streaming_cases self w state st events ending Hst Hs)
    as [ys [a [Hrun _]]].
  exists ys, a. eexists. split; [exact Hrun|]. split; reflexivity.
Qed.

(** In tool-augmented streaming mode the last value the caller receives
    is the answer of the final State; when nothing is yielded the answer
    is the empty string. *)
Theorem react_streaming_last_yield_is_answer :
  forall (self : ReactNode.RAGNodes) (w : World) (state : ref) (st : RAGState),
    heap w !! state = Some st ->
    exists (ys : list pyval) (w' : World),
      ReactNode.generate_answer_streaming create_react_agent wiki_run self state w
      = (ys, Ok (length (heap w)), w')
      /\ heap w' !! length (heap w)
         = Some (mkRAGState (question st) (retrieved_docs st)
                   (default (PyStr "") (last ys))).
Proof.
  intros self w state st Hst.
  destruct (agent_stream (agent_of create_react_agent wiki_run self w) (question st))
    as [events ending] eqn:Hs.
  destruct (react_streaming_cases self w state st events ending Hst Hs)
    as [ys [a [Hrun Ha]]].
  exists ys. eexists. split; [exact Hrun|].
  rewrite react_final_lookup, Ha. reflexivity.
Qed.

(** The fallback blocking invocation of the reasoning loop is made
    exactly when the stream ended normally without any content: a run
    adds one blocking invocation to the log in that case and none in any
    other. *)
Theorem react_fallback_exactly_when_silent :
  forall (self : ReactNode.RAGNodes) (w : World) (state : ref) (st : RAGState)
         (events : list (gmap string (list Message))) (ending : option string),
    heap w !! state = Some st ->
    agent_stream (agent_of create_react_agent wiki_run self w) (question st)
      = (events, ending) ->
    blocking_invocations
      (calls (snd (ReactNode.generate_answer_streaming create_react_agent wiki_run
                     self state w)))
    = blocking_invocations (calls w)
      + match ending, contents events with
        | None, [] => 1
        | _, _ => 0
        end.
Proof.
  intros self w state st events ending Hst Hs.
  destruct (react_streaming_cases self w state st events ending Hst Hs)
    as [ys [a [Hrun _]]].
  rewrite Hrun. cbn [snd]. rewrite react_final_blocking.
  destruct ending as [e|]; [reflexivity|].
  destruct (contents events); reflexivity.
Qed.

(** Failures of the reasoning loop become an answer.  When its stream
    raises, the contents received so far stay yielded, one more fragment
    ["Error generating answer: "] plus the exception text follows, that
    text is the final answer, and no fallback invocation is attempted;
    when the stream is silent and the fallback invocation raises, the
    error fragment is the only yield and the final answer. *)
Theorem react_streaming_error_fragment :
  forall (self : ReactNode.RAGNodes) (w : World) (state : ref) (st : RAGState)
         (events : list (gmap string (list Message))) (e : string),
    heap w !! state = Some st ->
    let agent := agent_of create_react_agent wiki_run self w in
    let error_msg := PyStr ("Error generating answer: " +:+ e) in
    let out := ReactNode.generate_answer_streaming create_react_agent wiki_run
                 self state w in
    let final := mkRAGState (question st) (retrieved_docs st) error_msg in
    (agent_stream agent (question st) = (events, Some e) ->
       fst out = (map PyStr (contents events) ++ [error_msg], Ok (length (heap w)))
       /\ heap (snd out) !! length (heap w) = Some final
       /\ blocking_invocations (calls (snd out)) = blocking_invocations (calls w))
    /\ (agent_stream agent (question st) = (events, None) ->
        contents events = [] ->
        agent_invoke agent (question st) = Raise e ->
        fst out = ([error_msg], Ok (length (heap w)))
        /\ heap (snd out) !! length (heap w) = Some final).
Proof.
  intros self w state st events e Hst agent error_msg out final.
  subst agent out. split.
  - intros Hs.
    rewrite (react_streaming_raises create_react_agent wiki_run self w state st
               events e Hst Hs).
    cbn [fst snd]. split; [reflexivity|]. split; [apply react_final_lookup|].
    rewrite react_final_blocking. cbn. lia.
  - intros Hs Hc Hinv.
    pose proof (react_streaming_fallback create_react_agent wiki_run self w state st
                  events Hst Hs Hc) as Hrun.
    cbv zeta in Hrun. rewrite Hinv in Hrun. rewrite Hrun.
    cbn [fst snd]. split; [reflexivity | apply react_final_lookup].
Qed.

Lemma py_or_truthy (a : pyval) (d : string) :
  d <> "" -> exists s, py_or a (PyStr d) = PyStr s /\ s <> "".
Proof.
  intros Hd. unfold py_or. destruct a as [|[|c s]]; cbn [truthy].
  - now exists d.
  - now exists d.
  - now exists (String c s).
Qed.

(** Blocking tool-augmented [generate_answer] never returns an empty
    answer: whenever the reasoning loop returns at all, the answer of
    the new State is a non-empty string.  (The streaming fallback has
    no such guarantee, it passes a [None] or empty content on.) *)
Theorem react_generate_answer_never_empty :
  forall (self : ReactNode.RAGNodes) (w : World) (state : ref) (st : RAGState)
         (res : gmap string (list Message)),
    heap w !! state = Some st ->
    agent_invoke (agent_of create_react_agent wiki_run self w) (question st) = Ok res ->
    exists (a : string) (w' : World),
      ReactNode.generate_answer create_react_agent wiki_run self state w
      = ([], Ok (length (heap w)), w')
      /\ heap w' = heap w ++ [mkRAGState (question st) (retrieved_docs st) (PyStr a)]
      /\ a <> "".
Proof.
  intros self w state st res Hst Hinv.
  pose proof (react_generate_answer_run create_react_agent wiki_run self w state st res
                Hst Hinv) as Hrun.
  cbv zeta in Hrun.
  destruct (py_or_truthy
              match last (ReactNode.messages_of res) with
              | Some m => ReactNode.getattr_content m PyNone
              | None => PyNone
              end "Could not generate answer.") as [a [Ha Hne]]; [discriminate|].
  rewrite Ha in Hrun. exists a. eexists. split; [exact Hrun|]. split; [reflexivity|].
  exact Hne.
Qed.

Lemma react_generate_answer_raises (self : ReactNode.RAGNodes) (w : World) (state : ref)
    (st : RAGState) (e : string) :
  heap w !! state = Some st ->
  agent_invoke (agent_of create_react_agent wiki_run self w) (question st) = Raise e ->
  ReactNode.generate_answer create_react_agent wiki_run self state w
  = ([], Raise e,
     mkWorld (heap w)
             (calls (with_agent create_react_agent wiki_run self w)
              ++ [AgentInvoke (question st)])
             (Some (agent_of create_react_agent wiki_run self w))).
Proof.
  intros Hst Hinv.
  unfold ReactNode.generate_answer, bind at 1.
  rewrite ensure_agent_run. unfold bind at 1.
  rewrite (deref_ok (with_agent create_react_agent wiki_run _ _) _ _ Hst).
  unfold ReactNode.invoke_agent, bind, log, outcome.
  cbn [heap calls _agent]. rewrite Hinv. reflexivity.
Qed.

(** When the reasoning loop's blocking invocation raises, blocking
    [generate_answer] raises the same exception and creates no State;
    the agent built for the call stays in place. *)
Theorem react_generate_answer_failure_propagates :
  forall (self : ReactNode.RAGNodes) (w : World) (state : ref) (st : RAGState)
         (e : string),
    heap w !! state = Some st ->
    agent_invoke (agent_of create_react_agent wiki_run self w) (question st) = Raise e ->
    exists w',
      ReactNode.generate_answer create_react_agent wiki_run self state w
      = ([], Raise e, w')
      /\ heap w' = heap w
      /\ _agent w' = Some (agent_of create_react_agent wiki_run self w)
      /\ blocking_invocations (calls w') = S (blocking_invocations (calls w)).
Proof.
  intros self w state st e Hst Hinv.
  eexists. split; [exact (react_generate_answer_raises self w state st e Hst Hinv)|].
  split; [reflexivity|]. split; [reflexivity|].
  cbn [calls]. unfold with_agent. cbn [calls].
  rewrite !blocking_invocations_app, blocking_build_calls. cbn. lia.
Qed.

End ReactFurther.

(** The agent is built lazily and once: the first generation call on a
    node object builds it if it is not there, and a later call, blocking
    or streaming, finds it and builds nothing; the log records one
    construction at most. *)
Theorem react_agent_built_once :
  forall (create_react_agent : LLM -> list ReactNode.Tool -> string -> Agent)
         (wiki_run : string -> result string)
         (self : ReactNode.RAGNodes) (w : World) (state state' : ref)
         (st st' : RAGState),
    heap w !! state = Some st ->
    heap w !! state' = Some st' ->
    let w1 := snd (ReactNode.generate_answer_streaming create_react_agent wiki_run
                     self state w) in
    let w2 := snd (ReactNode.generate_answer create_react_agent wiki_run
                     self state' w1) in
    _agent w1 = Some (agent_of create_react_agent wiki_run self w)
    /\ _agent w2 = _agent w1
    /\ agent_builds (calls w1)
       = agent_builds (calls w) + match _agent w with Some _ => 0 | None => 1 end
    /\ agent_builds (calls w2) = agent_builds (calls w1).
Proof.
  intros cra wiki self w state state' st st' Hst Hst' w1 w2.
  destruct (agent_stream (agent_of cra wiki self w) (question st))
    as [events ending] eqn:Hs.
  destruct (react_streaming_cases cra wiki self w state st events ending Hst Hs)
    as [ys [a [Hrun _]]].
  assert (Hw1 : w1 = react_final cra wiki self w st a
                       (AgentStream (question st) ::
                        match ending, contents events with
                        | None, [] => [AgentInvoke (question st)]
                        | _, _ => []
                        end)).
  { unfold w1. now rewrite Hrun. }
  assert (Hst1 : heap w1 !! state' = Some st').
  { rewrite Hw1. apply lookup_alloc_old, Hst'. }
  assert (Hb1 : agent_builds (calls w1)
                = agent_builds (calls w)
                  + match _agent w with Some _ => 0 | None => 1 end).
  { rewrite Hw1. unfold react_final, with_agent. cbn [calls].
    rewrite !agent_builds_app, agent_builds_build_calls.
    destruct ending as [e|]; [cbn; lia|].
    destruct (contents events); cbn; lia. }
  assert (Ha1 : _agent w1 = Some (agent_of cra wiki self w)).
  { now rewrite Hw1. }
  assert (Hw2 : _agent w2 = _agent w1
                /\ calls w2 = (calls w1 ++ build_calls w1)
                              ++ [AgentInvoke (question st')]).
  { unfold w2.
    destruct (agent_invoke (agent_of cra wiki self w1) (question st')) as [res|e] eqn:Hi.
    - rewrite (react_generate_answer_run cra wiki self w1 state' st' res Hst1 Hi).
      cbn [snd]. unfold react_final, with_agent, agent_of. cbn [_agent calls].
      now rewrite Ha1.
    - rewrite (react_generate_answer_raises cra wiki self w1 state' st' e Hst1 Hi).
      cbn [snd]. unfold with_agent, agent_of. cbn [_agent calls].
      now rewrite Ha1. }
  destruct Hw2 as [Ha2 Hc2].
  repeat split; try assumption.
  rewrite Hc2, !agent_builds_app, agent_builds_build_calls, Ha1. cbn. lia.
Qed.

Lemma react_streaming_always_returns_witness :
  exists (ys : list pyval) (a : pyval) (w' : World),
    ReactNode.generate_answer_streaming (factory_of agent_down) wiki_stub
      (ReactNode.mkRAGNodes retriever_two llm_hello) 0 sample_world
    = (ys, Ok 1, w')
    /\ heap w' = [sample_state; mkRAGState "Q" [doc_a; doc_b] a]
    /\ _agent w' = Some agent_down.
Proof.
  exact (react_streaming_always_returns (factory_of agent_down) wiki_stub
           (ReactNode.mkRAGNodes retriever_two llm_hello) sample_world 0 sample_state
           eq_refl).
Defined.

Lemma react_streaming_last_yield_is_answer_witness :
  exists (ys : list pyval) (w' : World),
    ReactNode.generate_answer_streaming (factory_of agent_none) wiki_stub
      (ReactNode.mkRAGNodes retriever_two llm_hello) 0 sample_world
    = (ys, Ok 1, w')
    /\ heap w' !! 1
       = Some (mkRAGState "Q" [doc_a; doc_b] (default (PyStr "") (last ys))).
Proof.
  exact (react_streaming_last_yield_is_answer (factory_of agent_none) wiki_stub
           (ReactNode.mkRAGNodes retriever_two llm_hello) sample_world 0 sample_state
           eq_refl).
Defined.

Lemma react_fallback_exactly_when_silent_witness :
  blocking_invocations
    (calls (snd (ReactNode.generate_answer_streaming (factory_of agent_mute) wiki_stub
                   (ReactNode.mkRAGNodes retriever_two llm_hello) 0 sample_world))) = 1
  /\ blocking_invocations
       (calls (snd (ReactNode.generate_answer_streaming (factory_of agent_broken)
                      wiki_stub (ReactNode.mkRAGNodes retriever_two llm_hello) 0
                      sample_world))) = 0.
Proof.
  split.
  - exact (react_fallback_exactly_when_silent (factory_of agent_mute) wiki_stub
             (ReactNode.mkRAGNodes retriever_two llm_hello) sample_world 0 sample_state
             [] None eq_refl eq_refl).
  - exact (react_fallback_exactly_when_silent (factory_of agent_broken) wiki_stub
             (ReactNode.mkRAGNodes retriever_two llm_hello) sample_world 0 sample_state
             [messages_dict [msg "partial"]] (Some "socket closed") eq_refl eq_refl).
Defined.

Lemma react_streaming_error_fragment_witness :
  fst (ReactNode.generate_answer_streaming (factory_of agent_broken) wiki_stub
         (ReactNode.mkRAGNodes retriever_two llm_hello) 0 sample_world)
    = ([PyStr "partial"; PyStr "Error generating answer: socket closed"], Ok 1)
  /\ fst (ReactNode.generate_answer_streaming (factory_of agent_down) wiki_stub
            (ReactNode.mkRAGNodes retriever_two llm_hello) 0 sample_world)
     = ([PyStr "Error generating answer: tool error"], Ok 1).
Proof.
  split.
  - exact (proj1 (proj1 (react_streaming_error_fragment (factory_of agent_broken)
                           wiki_stub (ReactNode.mkRAGNodes retriever_two llm_hello)
                           sample_world 0 sample_state
                           [messages_dict [msg "partial"]] "socket closed" eq_refl)
                    eq_refl)).
  - exact (proj1 (proj2 (react_streaming_error_fragment (factory_of agent_down)
                           wiki_stub (ReactNode.mkRAGNodes retriever_two llm_hello)
                           sample_world 0 sample_state [] "tool error" eq_refl)
                    eq_refl eq_refl eq_refl)).
Defined.

Lemma react_generate_answer_never_empty_witness :
  exists (a : string) (w' : World),
    ReactNode.generate_answer (factory_of agent_none) wiki_stub
      (ReactNode.mkRAGNodes retriever_two llm_hello) 0 sample_world
    = ([], Ok 1, w')
    /\ heap w' = [sample_state; mkRAGState "Q" [doc_a; doc_b] (PyStr a)]
    /\ a <> "".
Proof.
  exact (react_generate_answer_never_empty (factory_of agent_none) wiki_stub
           (ReactNode.mkRAGNodes retriever_two llm_hello) sample_world 0 sample_state
           (messages_dict [mkMessage (Some PyNone) None]) eq_refl eq_refl).
Defined.

Lemma react_generate_answer_failure_propagates_witness :
  exists w',
    ReactNode.generate_answer (factory_of agent_down) wiki_stub
      (ReactNode.mkRAGNodes retriever_two llm_hello) 0 sample_world
    = ([], Raise "tool error", w')
    /\ heap w' = [sample_state]
    /\ _agent w' = Some agent_down
    /\ blocking_invocations (calls w') = 1.
Proof.
  exact (react_generate_answer_failure_propagates (factory_of agent_down) wiki_stub
           (ReactNode.mkRAGNodes retriever_two llm_hello) sample_world 0 sample_state
           "tool error" eq_refl eq_refl).
Defined.

Lemma react_agent_built_once_witness :
  let w1 := snd (ReactNode.generate_answer_streaming (factory_of agent_a_b) wiki_stub
                   (ReactNode.mkRAGNodes retriever_two llm_hello) 0 sample_world) in
  let w2 := snd (ReactNode.generate_answer (factory_of agent_a_b) wiki_stub
                   (ReactNode.mkRAGNodes retriever_two llm_hello) 0 w1) in
  _agent w1 = Some agent_a_b
  /\ _agent w2 = _agent w1
  /\ agent_builds (calls w1) = 1
  /\ agent_builds (calls w2) = agent_builds (calls w1).
Proof.
  exact (react_agent_built_once (factory_of agent_a_b) wiki_stub
           (ReactNode.mkRAGNodes retriever_two llm_hello) sample_world 0 0
           sample_state sample_state eq_refl eq_refl).
Defined.

(** ** The retrieval-search tool *)

Lemma retriever_tool_run (r : Retriever) (l : LLM) (query : string) (w : World)
    (docs : list Document) :
  retriever_invoke r query = Ok docs ->
  ReactNode.retriever_tool_fn (ReactNode.mkRAGNodes r l) query w
  = ([], Ok match docs with
            | [] => "No documents found."
            | _ :: _ =>
                String.concat (nl +:+ nl)
                  (imap (fun i d => ReactNode.format_doc (S i) d) (take 8 docs))
            end,
     mkWorld (heap w) (calls w ++ [RetrieverInvoke query]) (_agent w)).
Proof.
  intros Hq.
  unfold ReactNode.retriever_tool_fn, ReactNode.invoke_retriever, bind, log, outcome.
  cbn [heap calls _agent ReactNode.retriever]. rewrite Hq.
  destruct docs as [|d docs]; [reflexivity|].
  unfold ret, ReactNode.enumerate1, str_join.
  rewrite merged_fold, app_nil_l, (enumerate_format 1). reflexivity.
Qed.

(** The title of an entry is never blank: whatever the metadata holds
    (no metadata, missing keys, [None] or empty values), the title is a
    non-empty string. *)
Theorem title_of_never_blank :
  forall (i : nat) (d : Document),
    exists t, ReactNode.title_of i d = PyStr t /\ t <> "".
Proof.
  intros i d. unfold ReactNode.title_of.
  apply py_or_truthy. discriminate.
Qed.

(** Passages beyond the eighth never reach the reasoning loop: once the
    retriever returns 8 passages or more, whatever follows them does not
    change the tool's result. *)
Theorem retriever_tool_ignores_beyond_eight :
  forall (r r' : Retriever) (l : LLM) (query : string) (w : World)
         (docs extra : list Document),
    retriever_invoke r query = Ok docs ->
    retriever_invoke r' query = Ok (docs ++ extra) ->
    8 <= length docs ->
    ReactNode.retriever_tool_fn (ReactNode.mkRAGNodes r' l) query w
    = ReactNode.retriever_tool_fn (ReactNode.mkRAGNodes r l) query w.
Proof.
  intros r r' l query w docs extra Hq Hq' Hlen.
  rewrite (retriever_tool_run r l query w docs Hq).
  rewrite (retriever_tool_run r' l query w (docs ++ extra) Hq').
  rewrite take_app_le by exact Hlen.
  destruct docs as [|d docs]; [cbn in Hlen; lia | reflexivity].
Qed.

Lemma retriever_tool_ignores_beyond_eight_witness :
  ReactNode.retriever_tool_fn
    (ReactNode.mkRAGNodes (mkRetriever (fun _ => Ok nine_docs)) llm_hello) "Q"
    empty_world
  = ReactNode.retriever_tool_fn
      (ReactNode.mkRAGNodes (mkRetriever (fun _ => Ok (take 8 nine_docs))) llm_hello)
      "Q" empty_world.
Proof.
  apply (retriever_tool_ignores_beyond_eight
           (mkRetriever (fun _ => Ok (take 8 nine_docs)))
           (mkRetriever (fun _ => Ok nine_docs)) llm_hello "Q" empty_world
           (take 8 nine_docs) [mkDocument "i" None]);
    [reflexivity | reflexivity | cbn; lia].
Defined.

Lemma concat_sep_head (sep x : string) (xs : list string) :
  exists tl, String.concat sep (x :: xs) = x +:+ tl.
Proof.
  destruct xs as [|y xs].
  - exists "". symmetry. apply str_app_nil_r.
  - now exists (sep +:+ String.concat sep (y :: xs)).
Qed.

(** A result for found passages cannot be mistaken for the sentinel:
    when the retriever returns at least one passage, the tool's result
    starts with ["[1] "] and so differs from ["No documents found."]. *)
Theorem retriever_tool_result_not_sentinel :
  forall (r : Retriever) (l : LLM) (query : string) (w : World) (docs : list Document),
    retriever_invoke r query = Ok docs ->
    docs <> [] ->
    exists (out rest : string) (w' : World),
      ReactNode.retriever_tool_fn (ReactNode.mkRAGNodes r l) query w = ([], Ok out, w')
      /\ out = "[1] " +:+ rest
      /\ out <> "No documents found.".
Proof.
  intros r l query w docs Hq Hne.
  destruct docs as [|d docs]; [congruence|].
  pose proof (retriever_tool_run r l query w (d :: docs) Hq) as Hrun.
  change (take 8 (d :: docs)) with (d :: take 7 docs) in Hrun.
  rewrite imap_cons in Hrun.
  destruct (concat_sep_head (nl +:+ nl) (ReactNode.format_doc 1 d)
              (imap ((fun i d => ReactNode.format_doc (S i) d) ∘ S) (take 7 docs)))
    as [tl Htl].
  rewrite Htl in Hrun.
  assert (Hhead : ReactNode.format_doc 1 d +:+ tl
                  = "[1] " +:+ ((py_str (ReactNode.title_of 1 d) +:+ nl +:+ page_content d)
                                +:+ tl)).
  { unfold ReactNode.format_doc.
    change ("[" +:+ str_of_nat 1 +:+ "] " +:+ py_str (ReactNode.title_of 1 d)
            +:+ nl +:+ page_content d)
      with ("[1] " +:+ (py_str (ReactNode.title_of 1 d) +:+ nl +:+ page_content d)).
    apply str_app_assoc. }
  rewrite Hhead in Hrun.
  eexists _, _, _. split; [exact Hrun|]. split; [reflexivity|].
  discriminate.
Qed.

Lemma retriever_tool_result_not_sentinel_witness :
  exists (out rest : string) (w' : World),
    ReactNode.retriever_tool_fn (ReactNode.mkRAGNodes retriever_two llm_hello) "Q"
      empty_world
    = ([], Ok out, w')
    /\ out = "[1] " +:+ rest
    /\ out <> "No documents found.".
Proof.
  apply (retriever_tool_result_not_sentinel retriever_two llm_hello "Q" empty_world
           [doc_a; doc_b]); [reflexivity | discriminate].
Defined.

(** ** The orchestrator *)

Lemma strs_app (xs ys : list pyval) : strs (xs ++ ys) = strs xs ++ strs ys.
Proof.
  induction xs as [|[|t] xs IH]; simpl; [reflexivity | exact IH | now rewrite IH].
Qed.

Lemma relay_loop_events (s : ref) (xs : list pyval) (final_state : GraphBuilder.pyobj)
    (w : World) :
  GraphBuilder.obj_truthy final_state = false ->
  exists final_state',
    loop (GraphBuilder.relay s) xs final_state w
    = (map (fragment_event s) (strs xs), Ok final_state', w)
    /\ GraphBuilder.obj_truthy final_state' = false.
Proof.
  revert final_state. induction xs as [|x xs IH]; intros final_state Hf; cbn [loop].
  - exists final_state. split; [reflexivity | exact Hf].
  - unfold bind at 1. destruct x as [|c].
    + destruct (IH (GraphBuilder.ObjVal PyNone) eq_refl) as [fs' [E Hfs]].
      change (GraphBuilder.relay s PyNone final_state w)
        with (@nil GraphBuilder.Event, Ok (GraphBuilder.ObjVal PyNone), w).
      cbv beta iota. rewrite E. exists fs'. split; [reflexivity | exact Hfs].
    + destruct (IH final_state Hf) as [fs' [E Hfs]].
      change (GraphBuilder.relay s (PyStr c) final_state w)
        with ([fragment_event s c], Ok final_state, w).
      cbv beta iota. rewrite E. exists fs'. split; [reflexivity | exact Hfs].
Qed.

(** [run_streaming] in terms of the generation stage it drives, once
    retrieval has succeeded. *)
Lemma run_streaming_run
    (create_react_agent : LLM -> list ReactNode.Tool -> string -> Agent)
    (wiki_run : string -> result string)
    (self : GraphBuilder.GraphBuilder) (q : string) (w : World) (docs : list Document) :
  retriever_invoke (ReactNode.retriever (GraphBuilder.nodes self)) q = Ok docs ->
  let s := length (heap w) in
  let w1 := mkWorld (heap w ++ [mkRAGState q docs PyNone])
                    (calls w ++ [RetrieverInvoke q]) (_agent w) in
  let gen := ReactNode.generate_answer_streaming create_react_agent wiki_run
               (GraphBuilder.nodes self) s w1 in
  GraphBuilder.run_streaming create_react_agent wiki_run self q w
  = (opening (length docs) s ++ map (fragment_event s) (strs (fst (fst gen))),
     match snd (fst gen) with Ok _ => Ok tt | Raise e => Raise e end,
     snd gen).
Proof.
  intros Hq s w1 gen.
  unfold GraphBuilder.run_streaming, bind at 1. unfold yield at 1.
  unfold bind at 1.
  unfold ReactNode.invoke_retriever, bind at 1, bind at 1, log, outcome.
  cbn [heap calls _agent]. rewrite Hq. cbn [app fst snd].
  unfold bind at 1. unfold new_RAGState at 1. cbn [heap calls _agent app].
  unfold bind at 1. unfold yield at 1. unfold bind at 1. unfold yield at 1.
  unfold bind at 1. unfold for_in.
  fold s. fold w1. fold gen.
  destruct gen as [[xs r] w2]. cbn [fst snd].
  destruct (relay_loop_events s xs (GraphBuilder.ObjVal PyNone) w2 eq_refl)
    as [fs' [-> Hfs]].
  destruct r as [a|e]; rewrite ?Hfs; cbn [fst snd app]; unfold ret.
  - now rewrite app_nil_r.
  - reflexivity.
Qed.

(** When the retriever raises, [run_streaming] has emitted the first
    [retrieving] event only; the exception ends the sequence, no State
    is created and the generation stage is never entered. *)
Theorem run_streaming_retrieval_failure :
  forall (create_react_agent : LLM -> list ReactNode.Tool -> string -> Agent)
         (wiki_run : string -> result string)
         (self : GraphBuilder.GraphBuilder) (q : string) (w : World) (e : string),
    retriever_invoke (ReactNode.retriever (GraphBuilder.nodes self)) q = Raise e ->
    GraphBuilder.run_streaming create_react_agent wiki_run self q w
    = ([GraphBuilder.mkEvent "retrieving" (PyStr "Retrieving relevant documents...")
          (GraphBuilder.ObjVal PyNone)],
       Raise e,
       mkWorld (heap w) (calls w ++ [RetrieverInvoke q]) (_agent w)).
Proof.
  intros cra wiki self q w e Hq.
  unfold GraphBuilder.run_streaming, bind at 1. unfold yield at 1.
  unfold bind at 1.
  unfold ReactNode.invoke_retriever, bind at 1, bind at 1, log, outcome.
  cbn [heap calls _agent]. rewrite Hq. reflexivity.
Qed.

Lemma run_streaming_retrieval_failure_witness :
  GraphBuilder.run_streaming (factory_of agent_a_b) wiki_stub
    (GraphBuilder.mkGraphBuilder (ReactNode.mkRAGNodes retriever_down llm_hello))
    "Q" empty_world
  = ([GraphBuilder.mkEvent "retrieving" (PyStr "Retrieving relevant documents...")
        (GraphBuilder.ObjVal PyNone)],
     Raise "index offline",
     mkWorld [] [RetrieverInvoke "Q"] None).
Proof.
  exact (run_streaming_retrieval_failure (factory_of agent_a_b) wiki_stub
           (GraphBuilder.mkGraphBuilder (ReactNode.mkRAGNodes retriever_down llm_hello))
           "Q" empty_world "index offline" eq_refl).
Defined.

(** Once retrieval has succeeded, the events of [run_streaming] are
    exactly: the two [retrieving] events, the empty [generating] event,
    and one [generating] event per string the generation stage yields,
    in order; every one of them after the first carries the same
    post-retrieval State, a yielded value that is not a string gives no
    event, and the world is left as the generation stage left it. *)
Theorem run_streaming_events :
  forall (create_react_agent : LLM -> list ReactNode.Tool -> string -> Agent)
         (wiki_run : string -> result string)
         (self : GraphBuilder.GraphBuilder) (q : string) (w : World)
         (docs : list Document),
    retriever_invoke (ReactNode.retriever (GraphBuilder.nodes self)) q = Ok docs ->
    let s := length (heap w) in
    let w1 := mkWorld (heap w ++ [mkRAGState q docs PyNone])
                      (calls w ++ [RetrieverInvoke q]) (_agent w) in
    let gen := ReactNode.generate_answer_streaming create_react_agent wiki_run
                 (GraphBuilder.nodes self) s w1 in
    let out := GraphBuilder.run_streaming create_react_agent wiki_run self q w in
    fst (fst out)
    = opening (length docs) s ++ map (fragment_event s) (strs (fst (fst gen)))
    /\ snd out = snd gen.
Proof.
  intros cra wiki self q w docs Hq s w1 gen out. unfold out.
  rewrite (run_streaming_run cra wiki self q w docs Hq). fold s w1 gen.
  split; reflexivity.
Qed.

Lemma run_streaming_events_witness :
  let out := GraphBuilder.run_streaming (factory_of agent_late) wiki_stub graph_two "Q"
               empty_world in
  fst (fst out) = opening 2 0 ++ [fragment_event 0 "late"]
  /\ snd out
     = snd (ReactNode.generate_answer_streaming (factory_of agent_late) wiki_stub
              (GraphBuilder.nodes graph_two) 0
              (mkWorld [mkRAGState "Q" [doc_a; doc_b] PyNone] [RetrieverInvoke "Q"]
                       None)).
Proof.
  exact (run_streaming_events (factory_of agent_late) wiki_stub graph_two "Q"
           empty_world [doc_a; doc_b] eq_refl).
Defined.

(** The caller of [run_streaming] does see the final answer: the
    generation stage leaves its final State in the store, and whenever
    that State's answer is a string, the last event of the run is a
    [generating] event whose content is that answer. *)
Theorem run_streaming_last_event_is_answer :
  forall (create_react_agent : LLM -> list ReactNode.Tool -> string -> Agent)
         (wiki_run : string -> result string)
         (self : GraphBuilder.GraphBuilder) (q : string) (w : World)
         (docs : list Document),
    retriever_invoke (ReactNode.retriever (GraphBuilder.nodes self)) q = Ok docs ->
    let out := GraphBuilder.run_streaming create_react_agent wiki_run self q w in
    exists final_answer : pyval,
      heap (snd out) !! S (length (heap w)) = Some (mkRAGState q docs final_answer)
      /\ (forall a : string,
            final_answer = PyStr a ->
            last (fst (fst out)) = Some (fragment_event (length (heap w)) a)).
Proof.
  intros cra wiki self q w docs Hq out. unfold out.
  rewrite (run_streaming_run cra wiki self q w docs Hq).
  set (s := length (heap w)).
  set (w1 := mkWorld (heap w ++ [mkRAGState q docs PyNone])
                     (calls w ++ [RetrieverInvoke q]) (_agent w)).
  assert (Hs : heap w1 !! s = Some (mkRAGState q docs PyNone))
    by apply lookup_alloc_new.
  destruct (agent_stream (agent_of cra wiki (GraphBuilder.nodes self) w1) q)
    as [events ending] eqn:Hstream.
  destruct (react_streaming_cases cra wiki (GraphBuilder.nodes self) w1 s _ events
              ending Hs Hstream) as [ys [a0 [Hrun Ha0]]].
  cbn [question retrieved_docs] in Hrun. rewrite Hrun. cbn [fst snd].
  exists a0. split.
  - replace (S s) with (length (heap w1)) by (unfold w1, s; cbn [heap];
      rewrite length_app; cbn; lia).
    apply (react_final_lookup cra wiki (GraphBuilder.nodes self) w1
             (mkRAGState q docs PyNone)).
  - intros a Ha. rewrite Ha in Ha0.
    destruct (last ys) as [y|] eqn:Hlast.
    + cbn in Ha0. subst y. apply last_Some in Hlast as [ys' ->].
      rewrite strs_app, map_app, app_assoc. cbn [strs map]. apply last_snoc.
    + apply last_None in Hlast. subst ys. cbn in Ha0. injection Ha0 as ->.
      reflexivity.
Qed.

Lemma run_streaming_last_event_is_answer_witness :
  let out := GraphBuilder.run_streaming (factory_of agent_snapshots) wiki_stub
               graph_two "Q" empty_world in
  exists final_answer : pyval,
    heap (snd out) !! 1 = Some (mkRAGState "Q" [doc_a; doc_b] final_answer)
    /\ (forall a : string,
          final_answer = PyStr a -> last (fst (fst out)) = Some (fragment_event 0 a)).
Proof.
  exact (run_streaming_last_event_is_answer (factory_of agent_snapshots) wiki_stub
           graph_two "Q" empty_world [doc_a; doc_b] eq_refl).
Defined.

(** ** The generator of the user interface *)

Lemma ui_stream_body_fragment (chunk : Chunk) (w : World) :
  StreamlitApp.stream_body chunk tt w
  = (match chunk_fragment chunk with Some f => [f] | None => [] end, Ok tt, w).
Proof.
  unfold StreamlitApp.stream_body, chunk_fragment.
  destruct (Nodes.truthy_attr (Nodes.content_attr chunk)); [reflexivity|].
  destruct (Nodes.truthy_attr (Nodes.text_attr chunk)); [reflexivity|].
  destruct chunk; reflexivity.
Qed.

Lemma ui_loop (chunks : list Chunk) (w : World) :
  loop StreamlitApp.stream_body chunks tt w = (fragments chunks, Ok tt, w).
Proof.
  induction chunks as [|chunk chunks IH]; cbn [loop fragments]; [reflexivity|].
  unfold bind. rewrite ui_stream_body_fragment, IH.
  now destruct (chunk_fragment chunk).
Qed.

Lemma ui_generate_stream_run (l : LLM) (docs : list Document) (q : string) (w : World)
    (chunks : list Chunk) (ending : option string) :
  let prompt :=
    StreamlitApp.prompt_of (str_join (nl +:+ nl) (StreamlitApp.context_parts docs)) q in
  llm_stream l prompt = (chunks, ending) ->
  StreamlitApp.generate_stream l docs q w
  = (fragments chunks,
     match ending with None => Ok tt | Some e => Raise e end,
     mkWorld (heap w) (calls w ++ [LlmStream prompt]) (_agent w)).
Proof.
  intros prompt Hs.
  unfold StreamlitApp.generate_stream. fold prompt.
  unfold for_in, bind, log, iter. rewrite Hs. cbn [fst snd app].
  rewrite ui_loop. now destruct ending.
Qed.

(** The generator of the user interface yields the fragments themselves
    (each chunk's own text, not the running string), skips chunk objects
    with nothing in them, and has no error handling: when the backend's
    stream raises, the fragments received so far have been yielded and
    the exception leaves the generator, with no error fragment. *)
Theorem ui_generate_stream_yields_fragments :
  forall (l : LLM) (docs : list Document) (q : string) (w : World)
         (chunks : list Chunk) (ending : option string),
    let prompt :=
      StreamlitApp.prompt_of (str_join (nl +:+ nl) (StreamlitApp.context_parts docs)) q in
    llm_stream l prompt = (chunks, ending) ->
    StreamlitApp.generate_stream l docs q w
    = (fragments chunks,
       match ending with None => Ok tt | Some e => Raise e end,
       mkWorld (heap w) (calls w ++ [LlmStream prompt]) (_agent w)).
Proof.
  intros l docs q w chunks ending prompt Hs.
  exact (ui_generate_stream_run l docs q w chunks ending Hs).
Qed.

Lemma ui_generate_stream_yields_fragments_witness :
  StreamlitApp.generate_stream llm_failing [doc_a; doc_b] "Q" empty_world
  = (["He"], Raise "connection reset",
     mkWorld [] [LlmStream (StreamlitApp.prompt_of
                              (str_join (nl +:+ nl)
                                 (StreamlitApp.context_parts [doc_a; doc_b])) "Q")]
             None).
Proof.
  exact (ui_generate_stream_yields_fragments llm_failing [doc_a; doc_b] "Q" empty_world
           [content_chunk "He"] (Some "connection reset") eq_refl).
Defined.



(** The prompt of the user interface is built from the first 5 passages
    only: once 5 passages or more are there, whatever follows them does
    not change what the generator sends or yields. *)
Theorem ui_context_ignores_beyond_five :
  forall (l : LLM) (docs extra : list Document) (q : string) (w : World),
    5 <= length docs ->
    StreamlitApp.generate_stream l (docs ++ extra) q w
    = StreamlitApp.generate_stream l docs q w.
Proof.
  intros l docs extra q w Hlen.
  unfold StreamlitApp.generate_stream, StreamlitApp.context_parts.
  now rewrite take_app_le.
Qed.

Lemma ui_context_ignores_beyond_five_witness :
  StreamlitApp.generate_stream llm_hello (take 5 nine_docs ++ drop 5 nine_docs) "Q"
    empty_world
  = StreamlitApp.generate_stream llm_hello (take 5 nine_docs) "Q" empty_world.
Proof.
  apply (ui_context_ignores_beyond_five llm_hello (take 5 nine_docs) (drop 5 nine_docs)
           "Q" empty_world).
  cbn. lia.
Defined.

(** ** The two stages together *)

Lemma simple_retrieve_docs_run (r : Retriever) (l : LLM) (w : World) (state : ref)
    (st : RAGState) (docs : list Document) :
  heap w !! state = Some st ->
  retriever_invoke r (question st) = Ok docs ->
  Nodes.retrieve_docs (Nodes.mkRAGNodes r l) state w
  = ([], Ok (length (heap w)),
     mkWorld (heap w ++ [mkRAGState (question st) docs PyNone])
             (calls w ++ [RetrieverInvoke (question st)]) (_agent w)).
Proof.
  intros Hst Hq.
  unfold Nodes.retrieve_docs, Nodes.invoke_retriever, bind, log, outcome, new_RAGState.
  rewrite (deref_ok w state st Hst). simpl. rewrite Hq. reflexivity.
Qed.

(** The stages of the simple mode compose: handing the State that
    [retrieve_docs] returns to [generate_answer] queries the retriever
    and then invokes the backend, once each, with a prompt built from
    exactly the passages just retrieved, and ends in a State with the
    original question, those passages and the backend's answer; the
    initial and the intermediate State stay in the store untouched. *)
Theorem simple_retrieve_then_generate :
  forall (r : Retriever) (l : LLM) (w : World) (state : ref) (st : RAGState)
         (docs : list Document) (resp : string),
    heap w !! state = Some st ->
    retriever_invoke r (question st) = Ok docs ->
    let prompt := Nodes.prompt_of (Nodes.context_of docs) (question st) in
    llm_invoke l prompt = Ok resp ->
    let self := Nodes.mkRAGNodes r l in
    (s <- Nodes.retrieve_docs self state ;; Nodes.generate_answer self s) w
    = ([], Ok (S (length (heap w))),
       mkWorld (heap w ++ [mkRAGState (question st) docs PyNone;
                           mkRAGState (question st) docs (PyStr resp)])
               (calls w ++ [RetrieverInvoke (question st); LlmInvoke prompt])
               (_agent w)).
Proof.
  intros r l w state st docs resp Hst Hq prompt Hinv self.
  unfold bind at 1. unfold self.
  rewrite (simple_retrieve_docs_run r l w state st docs Hst Hq).
  set (w1 := mkWorld (heap w ++ [mkRAGState (question st) docs PyNone])
                     (calls w ++ [RetrieverInvoke (question st)]) (_agent w)).
  assert (H1 : heap w1 !! length (heap w) = Some (mkRAGState (question st) docs PyNone))
    by apply lookup_alloc_new.
  rewrite (simple_generate_answer_run r l w1 (length (heap w)) _ resp H1 Hinv).
  unfold w1. cbn [heap calls _agent question retrieved_docs app].
  rewrite length_app, <- !app_assoc. cbn [length app].
  now rewrite Nat.add_1_r.
Qed.

Lemma simple_retrieve_then_generate_witness :
  (s <- Nodes.retrieve_docs (Nodes.mkRAGNodes retriever_two llm_hello) 0 ;;
   Nodes.generate_answer (Nodes.mkRAGNodes retriever_two llm_hello) s)
    (mkWorld [mkRAGState "Q" [] PyNone] [] None)
  = ([], Ok 2,
     mkWorld [mkRAGState "Q" [] PyNone;
              mkRAGState "Q" [doc_a; doc_b] PyNone;
              mkRAGState "Q" [doc_a; doc_b] (PyStr "Hello")]
             [RetrieverInvoke "Q";
              LlmInvoke (Nodes.prompt_of (Nodes.context_of [doc_a; doc_b]) "Q")]
             None).
Proof.
  exact (simple_retrieve_then_generate retriever_two llm_hello
           (mkWorld [mkRAGState "Q" [] PyNone] [] None) 0 (mkRAGState "Q" [] PyNone)
           [doc_a; doc_b] "Hello" eq_refl eq_refl eq_refl).
Defined.

(** In the tool-augmented mode the passages of the state play no part in
    generation: the reasoning loop is seeded with the question alone, so
    two states with the same question give the same yields and the same
    answer whatever passages they hold; the passages are only copied
    into the final State. *)
Theorem react_generation_ignores_retrieved_docs :
  forall (create_react_agent : LLM -> list ReactNode.Tool -> string -> Agent)
         (wiki_run : string -> result string)
         (self : ReactNode.RAGNodes) (w : World) (state state' : ref)
         (st st' : RAGState),
    heap w !! state = Some st ->
    heap w !! state' = Some st' ->
    question st = question st' ->
    let out := ReactNode.generate_answer_streaming create_react_agent wiki_run
                 self state w in
    let out' := ReactNode.generate_answer_streaming create_react_agent wiki_run
                  self state' w in
    fst out = fst out'
    /\ calls (snd out) = calls (snd out')
    /\ exists a,
         heap (snd out) !! length (heap w)
           = Some (mkRAGState (question st) (retrieved_docs st) a)
         /\ heap (snd out') !! length (heap w)
            = Some (mkRAGState (question st) (retrieved_docs st') a).
Proof.
  intros cra wiki self w state state' st st' Hst Hst' Hq out out'.
  unfold out, out'.
  destruct (agent_stream (agent_of cra wiki self w) (question st))
    as [events ending] eqn:Hs.
  assert (Hs' : agent_stream (agent_of cra wiki self w) (question st')
                = (events, ending)) by now rewrite <- Hq.
  destruct ending as [e|].
  - rewrite (react_streaming_raises cra wiki self w state st events e Hst Hs).
    rewrite (react_streaming_raises cra wiki self w state' st' events e Hst' Hs').
    rewrite <- Hq. repeat split. eexists.
    split; [apply react_final_lookup
           | cbn [snd]; now rewrite react_final_lookup, <- Hq].
  - destruct (contents events) as [|c0 cs] eqn:Hc.
    + rewrite (react_streaming_fallback cra wiki self w state st events Hst Hs Hc).
      rewrite (react_streaming_fallback cra wiki self w state' st' events Hst' Hs' Hc).
      rewrite <- Hq. cbv zeta.
      destruct (agent_invoke (agent_of cra wiki self w) (question st)) as [res|e];
        [destruct (last (ReactNode.messages_of res)) as [m|]|];
        (repeat split; eexists;
         split; [apply react_final_lookup
           | cbn [snd]; now rewrite react_final_lookup, <- Hq]).
    + assert (Hlast : exists c, last (contents events) = Some c).
      { destruct (last (contents events)) as [c|] eqn:Hlast; [now exists c|].
        apply last_None in Hlast. congruence. }
      destruct Hlast as [c Hlast].
      rewrite (react_streaming_content cra wiki self w state st events c Hst Hs Hlast).
      rewrite (react_streaming_content cra wiki self w state' st' events c Hst' Hs'
                 Hlast).
      rewrite <- Hq. repeat split. eexists.
    split; [apply react_final_lookup
           | cbn [snd]; now rewrite react_final_lookup, <- Hq].
Qed.

Lemma react_generation_ignores_retrieved_docs_witness :
  let w := mkWorld [mkRAGState "Q" [doc_a; doc_b] PyNone; mkRAGState "Q" [] PyNone]
                   [] None in
  let out := ReactNode.generate_answer_streaming (factory_of agent_a_b) wiki_stub
               (ReactNode.mkRAGNodes retriever_two llm_hello) 0 w in
  let out' := ReactNode.generate_answer_streaming (factory_of agent_a_b) wiki_stub
                (ReactNode.mkRAGNodes retriever_two llm_hello) 1 w in
  fst out = fst out'
  /\ calls (snd out) = calls (snd out')
  /\ exists a,
       heap (snd out) !! 2 = Some (mkRAGState "Q" [doc_a; doc_b] a)
       /\ heap (snd out') !! 2 = Some (mkRAGState "Q" [] a).
Proof.
  exact (react_generation_ignores_retrieved_docs (factory_of agent_a_b) wiki_stub
           (ReactNode.mkRAGNodes retriever_two llm_hello)
           (mkWorld [mkRAGState "Q" [doc_a; doc_b] PyNone; mkRAGState "Q" [] PyNone]
                    [] None)
           0 1 (mkRAGState "Q" [doc_a; doc_b] PyNone) (mkRAGState "Q" [] PyNone)
           eq_refl eq_refl eq_refl).
Defined.
